(** * FME/masking_server.py: a shallow embedding and its verified properties

    The program is a small local HTTP server built on Python's
    [http.server] and [socketserver].  The development follows the file:

    - [PyStr]     Python [str] values and the string primitives used,
    - [UrlParse]  [urllib.parse.urlparse], as far as [do_GET] relies on it,
    - [PathLib]   [pathlib.Path] values and the file system they denote,
    - [Handler]   [BaseHTTPRequestHandler]'s response primitives and the
                  class [MaskingRequestHandler],
    - [Lifecycle] [run_server] and [main].

    Library code is modelled after CPython's sources (3.11); what a model
    leaves out is said where it is defined. *)

From Stdlib Require Import ZArith Lia Bool Ascii String DecimalString DecimalPos
  DecimalZ.
From stdpp Require Import base tactics option list countable gmap strings.

Local Open Scope Z_scope.

(* ===================================================================== *)
(** ** Python strings *)
(* ===================================================================== *)

Module PyStr.

(** A Python [str] is a sequence of Unicode code points. *)
Abbreviation pystr := (list N).

(** Literals of the source are written as Rocq strings and injected. *)
Definition lit (s : string) : pystr :=
  map N_of_ascii (list_ascii_of_string s).

Definition chr (a : ascii) : N := N_of_ascii a.

(** [s.encode('latin-1', 'strict')] succeeds exactly on code points
    below 256. *)
Definition latin1_char (c : N) : bool := (c <? 256)%N.
Definition latin1 (s : pystr) : bool := forallb latin1_char s.

(** [s.isascii()] *)
Definition isascii (s : pystr) : bool := forallb (fun c => (c <? 128)%N) s.

(** [c in s] *)
Definition contains (c : N) (s : pystr) : bool := existsb (N.eqb c) s.

(** [s.find(c)] and [s.find(c, start)]: the least index, or -1. *)
Fixpoint index_of (c : N) (s : pystr) : option nat :=
  match s with
  | [] => None
  | x :: s' => if N.eqb c x then Some O else S <$> index_of c s'
  end.

Definition find (c : N) (s : pystr) : Z :=
  match index_of c s with
  | Some i => Z.of_nat i
  | None => -1
  end.

Definition find_from (c : N) (start : Z) (s : pystr) : Z :=
  match index_of c (drop (Z.to_nat start) s) with
  | Some i => start + Z.of_nat i
  | None => -1
  end.

(** [s.rfind(c)]: the greatest index, or -1. *)
Fixpoint rindex_of (c : N) (s : pystr) : option nat :=
  match s with
  | [] => None
  | x :: s' =>
      match rindex_of c s' with
      | Some i => Some (S i)
      | None => if N.eqb c x then Some O else None
      end
  end.

Definition rfind (c : N) (s : pystr) : Z :=
  match rindex_of c s with
  | Some i => Z.of_nat i
  | None => -1
  end.

(** Slices [s[:i]] and [s[i:]]; every call site has [0 <= i]. *)
Definition upto (s : pystr) (i : Z) : pystr := take (Z.to_nat i) s.
Definition from (s : pystr) (i : Z) : pystr := drop (Z.to_nat i) s.

(** [s.split(c, 1)] for a [c] that occurs in [s]. *)
Definition split1 (c : N) (s : pystr) : pystr * pystr :=
  let i := find c s in (upto s i, from s (i + 1)).

(** [s.lstrip(chars)], and [s.replace(c, e)] for the empty string [e]. *)
Fixpoint lstrip (strip : N -> bool) (s : pystr) : pystr :=
  match s with
  | [] => []
  | x :: s' => if strip x then lstrip strip s' else s
  end.

Definition remove (c : N) (s : pystr) : pystr :=
  filter (fun x => x ≠ c) s.

(** ASCII letters, [str.lower] on ASCII. *)
Definition is_upper (c : N) : bool := ((65 <=? c) && (c <=? 90))%N.
Definition is_lower (c : N) : bool := ((97 <=? c) && (c <=? 122))%N.
Definition is_digit (c : N) : bool := ((48 <=? c) && (c <=? 57))%N.
Definition ascii_alpha (c : N) : bool := is_upper c || is_lower c.
Definition lower_char (c : N) : N := if is_upper c then (c + 32)%N else c.
Definition lower (s : pystr) : pystr := map lower_char s.

(** [str(n)] for an [int]. *)
Definition str_of_int (n : Z) : pystr :=
  lit (NilZero.string_of_int (Z.to_int n)).

(** [int(s)] on a decimal numeral, [None] where Python raises. *)
Definition int_of_str (s : pystr) : option Z :=
  Z.of_int <$> NilZero.int_of_string (string_of_list_ascii (map ascii_of_N s)).

(** ["sep".join(parts)] *)
Fixpoint join (sep : pystr) (parts : list pystr) : pystr :=
  match parts with
  | [] => []
  | [p] => p
  | p :: rest => p ++ sep ++ join sep rest
  end.

(** The prefix of [s] before the first code point satisfying [p], and the
    rest from that code point on: the structural counterpart of a [find]
    followed by two slices, used to reason about them. *)
Fixpoint break (p : N -> bool) (s : pystr) : pystr * pystr :=
  match s with
  | [] => ([], [])
  | x :: s' =>
      if p x then ([], s)
      else let '(a, b) := break p s' in (x :: a, b)
  end.

End PyStr.
Import PyStr.

#[global] Arguments chr : simpl never.
#[global] Arguments lit : simpl never.
#[global] Arguments str_of_int : simpl never.
#[global] Arguments latin1 : simpl never.

(* ===================================================================== *)
(** ** Exceptions and results *)
(* ===================================================================== *)

(** The exceptions the program can meet; all derive from [Exception]. *)
Inductive exn :=
  | ValueError (msg : pystr)
  | FileNotFoundError (msg : pystr)
  | OSError (msg : pystr)
  | OverflowError (msg : pystr)
  | UnicodeEncodeError.

Inductive result (A : Type) :=
  | Ok (a : A)
  | Raise (e : exn).
Arguments Ok {A} a.
Arguments Raise {A} e.

#[global] Instance result_ret : MRet result := fun A a => Ok a.
#[global] Instance result_fmap : FMap result := fun A B f m =>
  match m with
  | Ok a => Ok (f a)
  | Raise e => Raise e
  end.
#[global] Instance result_bind : MBind result := fun A B f m =>
  match m with
  | Ok a => f a
  | Raise e => Raise e
  end.

(** What the standard library contributes and the program does not fix:
    the two validity checks of [urllib.parse] on a network location (the
    bracketed-host check and the NFKC check on a non-ASCII location; each
    raises [ValueError] when it fails), the tables and the error template
    of [http.server], and [repr] on strings. *)
Class Platform := {
  _check_bracketed_netloc : pystr -> bool;
  nfkc_netloc_ok : pystr -> bool;
  responses : Z -> option (string * string);
  error_page : Z -> pystr -> pystr -> list Byte.byte;
  version_string : string;
  py_repr : pystr -> pystr;
  py_repr_latin1 : forall s, latin1 s = true -> latin1 (py_repr s) = true;
}.

(* ===================================================================== *)
(** ** urllib.parse *)
(* ===================================================================== *)

Module UrlParse.
Section WithPlatform.
Context `{Platform}.

Record SplitResult := {
  sr_scheme : pystr;
  sr_netloc : pystr;
  sr_path : pystr;
  sr_query : pystr;
  sr_fragment : pystr;
}.

Record ParseResult := {
  scheme : pystr;
  netloc : pystr;
  path : pystr;
  params : pystr;
  query : pystr;
  fragment : pystr;
}.

(** [uses_params]; its first entry is the empty scheme. *)
Definition uses_params : list pystr :=
  [] :: map lit ["ftp"; "hdl"; "prospero"; "http"; "imap";
                 "https"; "shttp"; "rtsp"; "rtspu"; "sip"; "sips";
                 "mms"; "sftp"; "tel"]%string.

Definition scheme_char (c : N) : bool :=
  is_lower c || is_upper c || is_digit c
  || N.eqb c (chr "+") || N.eqb c (chr "-") || N.eqb c (chr ".").

(** [_WHATWG_C0_CONTROL_OR_SPACE]: code points 0 to 0x20. *)
Definition c0_control_or_space (c : N) : bool := (c <=? 32)%N.

(** [_UNSAFE_URL_BYTES_TO_REMOVE = ['\t', '\r', '\n']] *)
Definition remove_unsafe (url : pystr) : pystr :=
  fold_left (fun url b => remove b url) [9%N; 13%N; 10%N] url.

(** [_checknetloc] returns at once on an empty or ASCII location. *)
Definition _checknetloc (netloc : pystr) : bool :=
  match netloc with
  | [] => true
  | _ => if isascii netloc then true else nfkc_netloc_ok netloc
  end.

Definition _splitnetloc (url : pystr) (start : Z) : pystr * pystr :=
  let delim :=
    fold_left
      (fun delim c =>
         let wdelim := find_from c start url in
         if 0 <=? wdelim then Z.min delim wdelim else delim)
      [chr "/"; chr "?"; chr "#"]
      (Z.of_nat (length url)) in
  (from (upto url delim) start, from url delim).

Definition _splitparams (url : pystr) : pystr * pystr :=
  if contains (chr "/") url then
    let i := find_from (chr ";") (rfind (chr "/") url) url in
    if i <? 0 then (url, [])
    else (upto url i, from url (i + 1))
  else
    let i := find (chr ";") url in
    (upto url i, from url (i + 1)).

Definition urlsplit (url : pystr) : result SplitResult :=
  let url := lstrip c0_control_or_space url in
  let url := remove_unsafe url in
  let i := find (chr ":") url in
  let '(scheme, url) :=
    if (0 <? i) && ascii_alpha (hd 0%N url)
       && forallb scheme_char (upto url i)
    then (lower (upto url i), from url (i + 1))
    else ([], url) in
  '(netloc, url) ←
    (if bool_decide (upto url 2 = lit "//") then
       let '(netloc, url) := _splitnetloc url 2 in
       if (contains (chr "[") netloc && negb (contains (chr "]") netloc))
          || (contains (chr "]") netloc && negb (contains (chr "[") netloc))
       then Raise (ValueError (lit "Invalid IPv6 URL"))
       else if contains (chr "[") netloc && contains (chr "]") netloc
               && negb (_check_bracketed_netloc netloc)
       then Raise (ValueError (lit "Invalid IPv6 URL"))
       else Ok (netloc, url)
     else Ok ([], url));
  let '(url, fragment) :=
    if contains (chr "#") url then split1 (chr "#") url else (url, []) in
  let '(url, query) :=
    if contains (chr "?") url then split1 (chr "?") url else (url, []) in
  if negb (_checknetloc netloc)
  then Raise (ValueError (lit "netloc contains invalid characters under NFKC normalization"))
  else Ok {| sr_scheme := scheme; sr_netloc := netloc; sr_path := url;
             sr_query := query; sr_fragment := fragment |}.

Definition urlparse (url : pystr) : result ParseResult :=
  splitresult ← urlsplit url;
  let '(url, params) :=
    if bool_decide (sr_scheme splitresult ∈ uses_params)
       && contains (chr ";") (sr_path splitresult)
    then _splitparams (sr_path splitresult)
    else (sr_path splitresult, []) in
  Ok {| scheme := sr_scheme splitresult; netloc := sr_netloc splitresult;
        path := url; params := params;
        query := sr_query splitresult;
        fragment := sr_fragment splitresult |}.

(** The steps of [urlsplit], named so that they can be reasoned about one
    at a time ([urlsplit_steps] shows that they compose to [urlsplit]). *)
Definition normalize (url : pystr) : pystr :=
  remove_unsafe (lstrip c0_control_or_space url).

Definition split_scheme (url : pystr) : pystr * pystr :=
  let i := find (chr ":") url in
  if (0 <? i) && ascii_alpha (hd 0%N url)
     && forallb scheme_char (upto url i)
  then (lower (upto url i), from url (i + 1))
  else ([], url).

Definition split_netloc (url : pystr) : result (pystr * pystr) :=
  if bool_decide (upto url 2 = lit "//") then
    let '(netloc, url) := _splitnetloc url 2 in
    if (contains (chr "[") netloc && negb (contains (chr "]") netloc))
       || (contains (chr "]") netloc && negb (contains (chr "[") netloc))
    then Raise (ValueError (lit "Invalid IPv6 URL"))
    else if contains (chr "[") netloc && contains (chr "]") netloc
            && negb (_check_bracketed_netloc netloc)
    then Raise (ValueError (lit "Invalid IPv6 URL"))
    else Ok (netloc, url)
  else Ok ([], url).

Definition split_fragment (url : pystr) : pystr * pystr :=
  if contains (chr "#") url then split1 (chr "#") url else (url, []).

Definition split_query (url : pystr) : pystr * pystr :=
  if contains (chr "?") url then split1 (chr "?") url else (url, []).

Definition split_params (scheme url : pystr) : pystr * pystr :=
  if bool_decide (scheme ∈ uses_params) && contains (chr ";") url
  then _splitparams url
  else (url, []).

Definition is_delim (c : N) : bool :=
  N.eqb (chr "/") c || (N.eqb (chr "?") c || N.eqb (chr "#") c).

(** The route [do_GET] takes is a function of the scheme, network
    location, path and parameters [urlparse] finds; two outcomes [agree]
    when they raise the same exception or share these four. *)
Definition agree (r1 r2 : result ParseResult) : Prop :=
  match r1, r2 with
  | Ok a, Ok b =>
      scheme a = scheme b /\ netloc a = netloc b
      /\ path a = path b /\ params a = params b
  | Raise e1, Raise e2 => e1 = e2
  | _, _ => False
  end.

End WithPlatform.
End UrlParse.


(* ===================================================================== *)
(** ** pathlib and the file system *)
(* ===================================================================== *)

Module PathLib.

(** A [pathlib.Path]: whether it is anchored at the root, and its
    components below the anchor. *)
Record Path := { absolute : bool; parts : list pystr }.

#[global] Instance Path_eq_dec : EqDecision Path.
Proof. solve_decision. Defined.

#[global] Instance Path_countable : Countable Path :=
  inj_countable'
    (fun p => (absolute p, parts p))
    (fun t => {| absolute := t.1; parts := t.2 |})
    (fun p => match p with Build_Path _ _ => eq_refl end).

(** [p.name]: the final component, [''] when there is none. *)
Definition name (p : Path) : pystr := default [] (last (parts p)).

(** [str(p)] *)
Definition path_str (p : Path) : pystr :=
  if absolute p then lit "/" ++ join (lit "/") (parts p)
  else match parts p with
       | [] => lit "."
       | _ => join (lit "/") (parts p)
       end.

(** [p.with_name(n)] raises [ValueError] on a path with an empty name. *)
Definition with_name (p : Path) (n : pystr) : result Path :=
  match parts p with
  | [] => Raise (ValueError (path_str p ++ lit " has an empty name"))
  | _ => Ok {| absolute := absolute p; parts := removelast (parts p) ++ [n] |}
  end.

(** [p.parent] and [p / n] for a one-component relative [n]. *)
Definition parent (p : Path) : Path :=
  {| absolute := absolute p; parts := removelast (parts p) |}.

Definition joinpath (p : Path) (n : pystr) : Path :=
  {| absolute := absolute p; parts := parts p ++ [n] |}.

(** What a path denotes on disk.  [Unreadable] stands for anything that
    can be found but whose bytes cannot be read (a directory, a file
    without read permission): [exists()] is true and [read_bytes()]
    raises.  [Inaccessible] stands for a path that cannot even be looked
    at (a directory on the way to it may not be searched): [stat] fails
    with an error other than "no such file", which [exists()] lets through
    (pathlib 3.11 ignores only ENOENT, ENOTDIR, EBADF and ELOOP), and
    [read_bytes()] raises as well. *)
Inductive Node :=
  | RegularFile (data : list Byte.byte)
  | Unreadable
  | Inaccessible.

Definition exists_ (disk : gmap Path Node) (p : Path) : result bool :=
  match disk !! p with
  | Some Inaccessible =>
      Raise (OSError (lit "Permission denied: " ++ path_str p))
  | Some _ => Ok true
  | None => Ok false
  end.

Definition read_bytes (disk : gmap Path Node) (p : Path)
  : result (list Byte.byte) :=
  match disk !! p with
  | Some (RegularFile data) => Ok data
  | Some _ => Raise (OSError (lit "Permission denied: " ++ path_str p))
  | None =>
      Raise (FileNotFoundError (lit "No such file or directory: " ++ path_str p))
  end.

End PathLib.
Import PathLib.

(* ===================================================================== *)
(** ** The process: observable state and effects *)
(* ===================================================================== *)

(** One line of a response head, and what is written to a connection:
    heads are flushed whole by [end_headers], bodies by [wfile.write]. *)
Inductive Line :=
  | StatusLine (code : Z) (message : pystr)
  | HeaderLine (keyword value : pystr).

Inductive Wire :=
  | Head (lines : list Line)
  | Data (bytes : list Byte.byte).

(** Calls that leave the process. *)
Inductive Event :=
  | Bind (host : pystr) (port : Z)
  | OpenBrowser (url : pystr)
  | StartThread (sleep : Z)
  | ServeForever.

(** [_headers_buffer] and [wfile] belong to the handler of the connection
    being served; [sent] collects what earlier connections received. *)
Record Process := {
  stdout : list pystr;
  stderr : list pystr;
  events : list Event;
  _headers_buffer : list Line;
  wfile : list Wire;
  sent : list (list Wire);
}.

Definition initial : Process :=
  {| stdout := []; stderr := []; events := [];
     _headers_buffer := []; wfile := []; sent := [] |}.

(** Statements: state passing with exceptions. *)
Definition M (A : Type) : Type := Process -> result A * Process.

#[global] Instance M_ret : MRet M := fun A a s => (Ok a, s).
#[global] Instance M_bind : MBind M := fun A B f m s =>
  match m s with
  | (Ok a, s') => f a s'
  | (Raise e, s') => (Raise e, s')
  end.

Definition raise {A} (e : exn) : M A := fun s => (Raise e, s).
Definition lift {A} (r : result A) : M A := fun s => (r, s).
Definition pass : M unit := mret ().

(** [try: body / except Exception: handler] *)
Definition try_except {A} (body handler : M A) : M A := fun s =>
  match body s with
  | (Ok a, s') => (Ok a, s')
  | (Raise _, s') => handler s'
  end.

(** State changes. *)
Definition printed (line : pystr) (s : Process) : Process :=
  {| stdout := stdout s ++ [line]; stderr := stderr s;
     events := events s; _headers_buffer := _headers_buffer s;
     wfile := wfile s; sent := sent s |}.

Definition emitted (e : Event) (s : Process) : Process :=
  {| stdout := stdout s; stderr := stderr s;
     events := events s ++ [e]; _headers_buffer := _headers_buffer s;
     wfile := wfile s; sent := sent s |}.

Definition buffered (l : Line) (s : Process) : Process :=
  {| stdout := stdout s; stderr := stderr s;
     events := events s; _headers_buffer := _headers_buffer s ++ [l];
     wfile := wfile s; sent := sent s |}.

Definition flushed (s : Process) : Process :=
  {| stdout := stdout s; stderr := stderr s;
     events := events s; _headers_buffer := [];
     wfile := wfile s ++ [Head (_headers_buffer s)]; sent := sent s |}.

Definition written (data : list Byte.byte) (s : Process) : Process :=
  {| stdout := stdout s; stderr := stderr s;
     events := events s; _headers_buffer := _headers_buffer s;
     wfile := wfile s ++ [Data data]; sent := sent s |}.

Definition print (line : pystr) : M unit := fun s => (Ok (), printed line s).
Definition emit (e : Event) : M unit := fun s => (Ok (), emitted e s).
Definition buffer_line (l : Line) : M unit := fun s => (Ok (), buffered l s).
Definition flush_headers : M unit := fun s => (Ok (), flushed s).
Definition wfile_write (data : list Byte.byte) : M unit := fun s =>
  (Ok (), written data s).

(** What a statement writes to the connection of a fresh handler. *)
Definition wrote {A} (m : M A) : list Wire := wfile (m initial).2.

(** A statement is [quiet] when it leaves the standard streams and the
    record of outside calls as they were. *)
Definition quiet {A} (m : M A) : Prop :=
  forall s, stdout (m s).2 = stdout s
            /\ stderr (m s).2 = stderr s
            /\ events (m s).2 = events s.

(* ===================================================================== *)
(** ** http.server and the request handler *)
(* ===================================================================== *)

Module Handler.
Section WithPlatform.
Context `{Platform}.

(** The attributes [run_server] sets on the server object.  [file_path]
    is tested for truth by the handler; [None] stands for a falsy value. *)
Record Server := {
  file_path : option Path;
  html_path : Path;
  static_dir : Path;
}.

(** A handler instance after [parse_request] has accepted an HTTP/1.x
    request line, together with the disk and clock at that moment. *)
Record Self := {
  command : pystr;
  path : pystr;
  server : Server;
  disk : gmap Path Node;
  date_time_string : string;
}.

(** *** BaseHTTPRequestHandler *)

(** Overridden by the program: "Keep the app quiet unless something goes
    wrong."  The inherited one writes a line to [sys.stderr]. *)
Definition log_message (self : Self) (format : pystr) (args : list pystr)
  : M unit :=
  pass.

Definition log_request (self : Self) (code : Z) : M unit :=
  log_message self (lit "%s %s %s") [path self; str_of_int code; lit "-"].

Definition log_error (self : Self) (format : pystr) (args : list pystr)
  : M unit :=
  log_message self format args.

(** The status line and every header are encoded with
    [.encode('latin-1', 'strict')] when buffered. *)
Definition reason_phrase (code : Z) (message : option pystr) : pystr :=
  match message with
  | Some m => m
  | None => match responses code with
            | Some (shortmsg, _) => lit shortmsg
            | None => []
            end
  end.

Definition send_response_only (self : Self) (code : Z) (message : option pystr)
  : M unit :=
  let message := reason_phrase code message in
  if latin1 message then buffer_line (StatusLine code message)
  else raise UnicodeEncodeError.

Definition send_header (self : Self) (keyword value : pystr) : M unit :=
  if latin1 keyword && latin1 value then buffer_line (HeaderLine keyword value)
  else raise UnicodeEncodeError.

Definition send_response (self : Self) (code : Z) (message : option pystr)
  : M unit :=
  log_request self code;;
  send_response_only self code message;;
  send_header self (lit "Server") (lit version_string);;
  send_header self (lit "Date") (lit (date_time_string self)).

Definition end_headers (self : Self) : M unit :=
  flush_headers.

Definition error_content_type : pystr := lit "text/html;charset=utf-8".

Definition send_error (self : Self) (code : Z) (message : option pystr)
  : M unit :=
  let '(shortmsg, longmsg) :=
    match responses code with
    | Some (s, l) => (lit s, lit l)
    | None => (lit "???", lit "???")
    end in
  let message := default shortmsg message in
  let explain := longmsg in
  log_error self (lit "code %d, message %s") [str_of_int code; message];;
  send_response self code (Some message);;
  send_header self (lit "Connection") (lit "close");;
  body ←
    (if (200 <=? code) && negb (bool_decide (code ∈ [204; 205; 304]))
     then
       let body := error_page code message explain in
       send_header self (lit "Content-Type") error_content_type;;
       send_header self (lit "Content-Length")
                   (str_of_int (Z.of_nat (length body)));;
       mret (Some body)
     else mret None);
  end_headers self;;
  match body with
  | Some (b :: bs) =>
      if bool_decide (command self ≠ lit "HEAD") then wfile_write (b :: bs)
      else pass
  | _ => pass
  end.

(** *** MaskingRequestHandler *)

Definition _serve_masking_html (self : Self) : M unit :=
  loaded ←
    try_except
      (let html_path := html_path (server self) in
       data ← lift (read_bytes (disk self) html_path);
       mret (Some data))
      (send_error self 500 (Some (lit "Failed to load Masking.html"));;
       mret None);
  match loaded with
  | None => pass
  | Some data =>
      send_response self 200 None;;
      send_header self (lit "Content-Type") (lit "text/html; charset=utf-8");;
      send_header self (lit "Cache-Control") (lit "no-store");;
      send_header self (lit "Content-Length")
                  (str_of_int (Z.of_nat (length data)));;
      end_headers self;;
      wfile_write data
  end.

Definition _serve_static_file (self : Self) (name content_type : pystr)
  : M unit :=
  loaded ←
    try_except
      (let file_path := joinpath (static_dir (server self)) name in
       present ← lift (exists_ (disk self) file_path);
       if negb present then
         send_error self 404 (Some (lit "Not Found"));;
         mret None
       else
         data ← lift (read_bytes (disk self) file_path);
         mret (Some data))
      (send_error self 500 (Some (lit "Failed to load static file"));;
       mret None);
  match loaded with
  | None => pass
  | Some data =>
      send_response self 200 None;;
      send_header self (lit "Content-Type") content_type;;
      send_header self (lit "Cache-Control") (lit "no-store");;
      send_header self (lit "Content-Length")
                  (str_of_int (Z.of_nat (length data)));;
      end_headers self;;
      wfile_write data
  end.

Definition _serve_fits_file (self : Self) : M unit :=
  match file_path (server self) with
  | None => send_error self 404 (Some (lit "File not found"))
  | Some file_path =>
      present ← lift (exists_ (disk self) file_path);
      if negb present then
        send_error self 404 (Some (lit "File not found"))
      else
        loaded ←
          try_except
            (data ← lift (read_bytes (disk self) file_path);
             mret (Some data))
            (send_error self 500 (Some (lit "Failed to read file"));;
             mret None);
        match loaded with
        | None => pass
        | Some data =>
            send_response self 200 None;;
            send_header self (lit "Content-Type")
                        (lit "application/octet-stream");;
            send_header self (lit "Cache-Control") (lit "no-store");;
            send_header self (lit "Content-Length")
                        (str_of_int (Z.of_nat (length data)));;
            send_header self (lit "X-Masking-File-Name") (name file_path);;
            end_headers self;;
            wfile_write data
        end
  end.

Definition do_GET (self : Self) : M unit :=
  parsed ← lift (UrlParse.urlparse (path self));
  if bool_decide (UrlParse.path parsed = lit "/fits.js") then
    _serve_static_file self (lit "fits.js")
                       (lit "application/javascript; charset=utf-8")
  else if bool_decide (UrlParse.path parsed = lit "/file") then
    _serve_fits_file self
  else if bool_decide (UrlParse.path parsed ∈ [lit "/"; lit "/index.html"]) then
    _serve_masking_html self
  else
    send_error self 404 (Some (lit "Not Found")).

(** The four branches of [do_GET], to name the handler a path goes to. *)
Inductive Route := StaticAsset | TargetFile | ApplicationShell | NotFound.

Definition route (parsed_path : pystr) : Route :=
  if bool_decide (parsed_path = lit "/fits.js") then StaticAsset
  else if bool_decide (parsed_path = lit "/file") then TargetFile
  else if bool_decide (parsed_path ∈ [lit "/"; lit "/index.html"])
  then ApplicationShell
  else NotFound.

Definition dispatch (self : Self) (r : Route) : M unit :=
  match r with
  | StaticAsset =>
      _serve_static_file self (lit "fits.js")
                         (lit "application/javascript; charset=utf-8")
  | TargetFile => _serve_fits_file self
  | ApplicationShell => _serve_masking_html self
  | NotFound => send_error self 404 (Some (lit "Not Found"))
  end.

Definition route_of (target : pystr) : result Route :=
  (fun parsed => route (UrlParse.path parsed)) <$> UrlParse.urlparse target.

(** [self.path] as [parse_request] sets it from the target on the
    request line: a run of leading slashes is reduced to one
    ([if self.path.startswith('//'): self.path = '/' +
    self.path.lstrip('/')]). *)
Definition request_path (target : pystr) : pystr :=
  if bool_decide (upto target 2 = lit "//")
  then chr "/" :: lstrip (N.eqb (chr "/")) target
  else target.

(** The handler with [self.command] and [self.path] set to [verb] and
    [target], in the state [self] is in. *)
Definition request_for (self : Self) (verb target : pystr) : Self :=
  {| command := verb; path := target; server := server self;
     disk := disk self; date_time_string := date_time_string self |}.

Definition GET (self : Self) (target : pystr) : Self :=
  request_for self (lit "GET") target.

(** *** Dispatch *)

(** The [do_*] attributes of [MaskingRequestHandler] and its bases:
    [BaseHTTPRequestHandler] defines none. *)
Definition do_methods : list (pystr * (Self -> M unit)) :=
  [(lit "do_GET", do_GET)].

Fixpoint getattr (methods : list (pystr * (Self -> M unit))) (mname : pystr)
  : option (Self -> M unit) :=
  match methods with
  | [] => None
  | (n, m) :: rest => if bool_decide (n = mname) then Some m else getattr rest mname
  end.

(** [handle_one_request], from the point where [parse_request] returned
    true. *)
Definition handle_one_request (self : Self) : M unit :=
  let mname := lit "do_" ++ command self in
  match getattr do_methods mname with
  | None =>
      send_error self 501
        (Some (lit "Unsupported method (" ++ py_repr (command self) ++ lit ")"))
  | Some method => method self
  end.

(** [socketserver]: a fresh handler per connection; an exception that
    escapes it is reported on [sys.stderr] by [handle_error] and the
    connection is closed with whatever had been written. *)
Definition process_request (self : Self) : M unit := fun s =>
  let fresh :=
    {| stdout := stdout s; stderr := stderr s; events := events s;
       _headers_buffer := []; wfile := []; sent := sent s |} in
  let '(outcome, s') := handle_one_request self fresh in
  (Ok (),
   {| stdout := stdout s';
      stderr := match outcome with
                | Ok _ => stderr s'
                | Raise _ =>
                    stderr s' ++ [lit "Exception occurred during processing of request"]
                end;
      events := events s';
      _headers_buffer := []; wfile := [];
      sent := sent s' ++ [wfile s'] |}).

(** *** Reading a response off the wire *)

(** The head is read line by line as it was buffered.  That is how a
    client sees it as long as no header value contains CR or LF, which
    [send_header] would write through unchanged. *)

Record Response := {
  status : Z;
  reason : pystr;
  headers : list (pystr * pystr);
  body : list Byte.byte;
}.

Definition header_of (l : Line) : option (pystr * pystr) :=
  match l with
  | HeaderLine k v => Some (k, v)
  | StatusLine _ _ => None
  end.

Definition data_of (w : Wire) : list Byte.byte :=
  match w with
  | Data bytes => bytes
  | Head _ => []
  end.

Definition response_of (w : list Wire) : option Response :=
  match w with
  | Head (StatusLine code message :: lines) :: rest =>
      Some {| status := code; reason := message;
              headers := omap header_of lines;
              body := concat (map data_of rest) |}
  | _ => None
  end.

Fixpoint get_header (hs : list (pystr * pystr)) (keyword : pystr)
  : option pystr :=
  match hs with
  | [] => None
  | (k, v) :: rest => if bool_decide (k = keyword) then Some v else get_header rest keyword
  end.

(** What the client of a request receives when it is served from a fresh
    process state. *)
Definition reply (self : Self) : list Wire :=
  wrote (handle_one_request self).

End WithPlatform.
End Handler.

(* ===================================================================== *)
(** ** run_server and main *)
(* ===================================================================== *)

Module Lifecycle.
Section WithPlatform.
Context `{Platform}.
Import Handler.

(** The parsed command line: [args.file], [args.open], [args.timeout],
    [args.port]. *)
Record Args := {
  file : pystr;
  open : bool;
  timeout : Z;
  port : Z;
}.

(** The host at startup: the disk, the location of the script, path
    resolution ([Path(os.path.expanduser(s)).resolve()]), and the state of
    the loopback ports. *)
Record World := {
  startup_disk : gmap Path Node;
  __file__ : Path;
  resolve : pystr -> Path;
  ephemeral_port : option Z;
  port_in_use : Z -> bool;
}.

(** A request reaching the serve loop: the method and the target of its
    request line, with the disk and clock when it is handled. *)
Record Incoming := {
  at_disk : gmap Path Node;
  at_time : string;
  method : pystr;
  target : pystr;
}.

(** The operating system's answer to [bind((host, port))] on the loopback
    interface: the port bound, which is the one asked for unless that is
    0. *)
Definition os_bind (w : World) (port : Z) : result Z :=
  if (port <? 0) || (65535 <? port) then
    Raise (OverflowError (lit "bind(): port must be 0-65535."))
  else if port =? 0 then
    match ephemeral_port w with
    | Some p => Ok p
    | None => Raise (OSError (lit "Cannot assign requested address"))
    end
  else if port_in_use w port then
    Raise (OSError (lit "Address already in use"))
  else Ok port.

(** [socketserver.TCPServer(server_address, ...)]: binds and listens; the
    value is [httpd.server_address] afterwards. *)
Definition TCPServer (w : World) (server_address : pystr * Z)
  : M (pystr * Z) :=
  let '(host, port) := server_address in
  emit (Bind host port);;
  bound ← lift (os_bind w port);
  mret (host, bound).

Definition webbrowser_open (url : pystr) : M unit := emit (OpenBrowser url).

(** [threading.Thread(target=shutdown_later, daemon=True).start()], where
    [shutdown_later] is [time.sleep(timeout); httpd.shutdown()]. *)
Definition start_shutdown_later (timeout : Z) : M unit :=
  emit (StartThread timeout).

(** [httpd.serve_forever()], given the requests that arrive before the
    loop is stopped. *)
Fixpoint serve_requests (httpd : Server) (incoming : list Incoming) : M unit :=
  match incoming with
  | [] => pass
  | r :: rest =>
      process_request
        {| command := method r; path := request_path (target r);
           server := httpd;
           disk := at_disk r; date_time_string := at_time r |};;
      serve_requests httpd rest
  end.

Definition serve_forever (httpd : Server) (incoming : list Incoming) : M unit :=
  emit ServeForever;;
  serve_requests httpd incoming.

Definition run_server (w : World) (file_path : Path) (auto_open : bool)
    (timeout port : Z) (incoming : list Incoming) : M unit :=
  html_path ← lift (with_name (__file__ w) (lit "Masking.html"));
  present ← lift (exists_ (startup_disk w) html_path);
  if negb present then
    raise (FileNotFoundError
             (lit "Masking.html not found at " ++ path_str html_path))
  else
    server_address ← TCPServer w (lit "127.0.0.1", port);
    let httpd := {| file_path := Some file_path;
                    html_path := html_path;
                    static_dir := parent html_path |} in
    let port := server_address.2 in
    let url := lit "http://127.0.0.1:" ++ str_of_int port ++ lit "/?open=1" in
    print url;;
    (if auto_open then webbrowser_open url else pass);;
    (if 0 <? timeout then start_shutdown_later timeout else pass);;
    serve_forever httpd incoming.

Definition main (w : World) (args : Args) (incoming : list Incoming)
  : M unit :=
  let file_path := resolve w (file args) in
  present ← lift (exists_ (startup_disk w) file_path);
  if negb present then
    raise (FileNotFoundError (lit "File not found: " ++ path_str file_path))
  else
    run_server w file_path (open args) (timeout args) (port args) incoming.

(** The interpreter's exit status: 1 after an uncaught exception. *)
Definition exit_status {A} (outcome : result A) : Z :=
  match outcome with
  | Ok _ => 0
  | Raise _ => 1
  end.

(** The addresses the process asked the operating system to bind. *)
Definition binds (evs : list Event) : list (pystr * Z) :=
  omap (fun e => match e with
                 | Bind host port => Some (host, port)
                 | _ => None
                 end) evs.

Definition loopback_only (e : Event) : bool :=
  match e with
  | Bind host _ => bool_decide (host = lit "127.0.0.1")
  | _ => true
  end.

End WithPlatform.
End Lifecycle.

(* ===================================================================== *)
(** ** A concrete platform and sample data *)
(* ===================================================================== *)

Module Samples.
Import Handler Lifecycle.

(** A platform to evaluate the program on: the checks of [urllib.parse]
    pass, the error page is the reason phrase itself, and [repr] puts its
    argument between single quotes (as CPython does for printable text
    without quotes or backslashes). *)
#[local] Program Instance cpython : Platform := {|
  _check_bracketed_netloc := fun _ => true;
  nfkc_netloc_ok := fun _ => true;
  responses := fun code =>
    if code =? 200 then Some ("OK", "Request fulfilled, document follows")
    else if code =? 404 then Some ("Not Found", "Nothing matches the given URI")
    else if code =? 500 then
      Some ("Internal Server Error", "Server got itself in trouble")
    else if code =? 501 then
      Some ("Not Implemented", "Server does not support this operation")
    else None;
  error_page := fun _ message _ =>
    map (fun c => default Byte.x3f (Byte.of_N c)) message;
  version_string := "BaseHTTP/0.6 Python/3.11.2";
  py_repr := fun s => lit "'" ++ s ++ lit "'";
|}.
Next Obligation.
  intros s Hs. unfold latin1 in *.
  rewrite !forallb_app, Hs. reflexivity.
Qed.

Definition a_fits : Path :=
  {| absolute := true; parts := [lit "tmp"; lit "a.fits"] |}.

(** /tmp/α.fits: the name starts with U+03B1. *)
Definition alpha_fits : Path :=
  {| absolute := true; parts := [lit "tmp"; 945%N :: lit ".fits"] |}.

Definition script : Path :=
  {| absolute := true; parts := [lit "opt"; lit "FME"; lit "masking_server.py"] |}.

Definition masking_html : Path :=
  {| absolute := true; parts := [lit "opt"; lit "FME"; lit "Masking.html"] |}.

Definition fits_js : Path :=
  {| absolute := true; parts := [lit "opt"; lit "FME"; lit "fits.js"] |}.

Definition fits_bytes : list Byte.byte :=
  [Byte.x53; Byte.x49; Byte.x4d; Byte.x50; Byte.x4c; Byte.x45].

Definition html_bytes : list Byte.byte :=
  [Byte.x3c; Byte.x68; Byte.x74; Byte.x6d; Byte.x6c; Byte.x3e].

Definition js_bytes : list Byte.byte := [Byte.x2f; Byte.x2f].

Definition sample_disk : gmap Path Node :=
  <[a_fits := RegularFile fits_bytes]>
    (<[alpha_fits := RegularFile fits_bytes]>
       (<[masking_html := RegularFile html_bytes]>
          (<[fits_js := RegularFile js_bytes]> ∅))).

(** The same disk with /tmp/a.fits present but unreadable. *)
Definition locked_disk : gmap Path Node :=
  <[a_fits := Unreadable]> sample_disk.

Definition httpd_for (p : Path) : Server :=
  {| file_path := Some p; html_path := masking_html;
     static_dir := parent masking_html |}.

Definition request (verb target : string) (p : Path) (d : gmap Path Node)
  : Self :=
  {| command := lit verb; path := lit target; server := httpd_for p;
     disk := d; date_time_string := "Wed, 04 Nov 2026 10:00:00 GMT" |}.

Definition sample_reply (verb target : string) (p : Path)
    (d : gmap Path Node) : list Wire :=
  reply (request verb target p d).

Definition sample_world (d : gmap Path Node) : World :=
  {| startup_disk := d; __file__ := script;
     resolve := fun s => {| absolute := true; parts := [lit "tmp"; s] |};
     ephemeral_port := Some 49152;
     port_in_use := fun _ => false |}.

Definition sample_args (name : pystr) (port : Z) : Args :=
  {| file := name; open := false; timeout := 0; port := port |}.

Definition sample_main (d : gmap Path Node) (args : Args)
    (incoming : list Incoming) : result () * Process :=
  main (sample_world d) args incoming initial.

End Samples.

(* ===================================================================== *)
(** ** Connections, and requests as the serve loop sees them *)
(* ===================================================================== *)

Module Serving.
Section WithPlatform.
Context `{Platform}.
Import Handler Lifecycle.

(** The part of the process state that belongs to the connection being
    served. *)
Definition conn (s : Process) : list Line * list Wire :=
  (_headers_buffer s, wfile s).

(** A statement is [confined] to its connection when its outcome and what
    it leaves on the connection depend on the connection alone, and it
    leaves the replies already sent as they were. *)
Definition confined {A} (m : M A) : Prop :=
  (forall s1 s2, conn s1 = conn s2 ->
                 (m s1).1 = (m s2).1 /\ conn (m s1).2 = conn (m s2).2)
  /\ (forall s, sent (m s).2 = sent s).

(** The handler instance [serve_requests] builds for an incoming request. *)
Definition handler_of (httpd : Server) (r : Incoming) : Self :=
  {| command := method r; path := request_path (target r);
     server := httpd;
     disk := at_disk r; date_time_string := at_time r |}.

(** The server object [run_server] sets up for a target file, with
    Masking.html at [html]. *)
Definition httpd_of (file_path html : Path) : Server :=
  {| file_path := Some file_path; html_path := html;
     static_dir := parent html |}.

(** The same handler looking at another disk. *)
Definition with_disk (self : Self) (d : gmap Path Node) : Self :=
  {| command := command self; path := path self; server := server self;
     disk := d; date_time_string := date_time_string self |}.

(** The one path a route consults on disk, if any. *)
Definition consulted (httpd : Server) (r : Route) : option Path :=
  match r with
  | StaticAsset => Some (joinpath (static_dir httpd) (lit "fits.js"))
  | TargetFile => file_path httpd
  | ApplicationShell => Some (html_path httpd)
  | NotFound => None
  end.

(** The text [send_header] puts on the wire for a header,
    ["%s: %s\r\n" % (keyword, value)], with no check of what the value
    contains. *)
Definition header_text (keyword value : pystr) : pystr :=
  keyword ++ lit ": " ++ value ++ [13%N; 10%N].

(** CR and LF end a line of the head.  A string without them is one
    line; the first line of a text is what precedes the first of them. *)
Definition is_eol (c : N) : bool := (c =? 13)%N || (c =? 10)%N.

Definition one_line (s : pystr) : bool :=
  forallb (fun c => negb (is_eol c)) s.

Definition first_line (text : pystr) : pystr := (break is_eol text).1.

(** The reason phrases the program passes to [send_error]. *)
Definition error_reasons : list (Z * pystr) :=
  [(404, lit "Not Found"); (404, lit "File not found");
   (500, lit "Failed to read file");
   (500, lit "Failed to load Masking.html");
   (500, lit "Failed to load static file")].

Definition printed_url (bound : Z) : pystr :=
  lit "http://127.0.0.1:" ++ str_of_int bound ++ lit "/?open=1".

End WithPlatform.
End Serving.

Module MoreSamples.
Import Handler Lifecycle Samples Serving.

(** The sample disk after /tmp/a.fits has been overwritten. *)
Definition new_bytes : list Byte.byte := [Byte.x4e; Byte.x45; Byte.x57].

Definition rewritten_disk : gmap Path Node :=
  <[a_fits := RegularFile new_bytes]> sample_disk.

(** A host on which port 5500 is taken. *)
Definition busy_world : World :=
  {| startup_disk := sample_disk; __file__ := script;
     resolve := fun s => {| absolute := true; parts := [lit "tmp"; s] |};
     ephemeral_port := Some 49152;
     port_in_use := fun p => p =? 5500 |}.

(** The sample disk once /tmp may no longer be searched. *)
Definition barred_disk : gmap Path Node :=
  <[a_fits := Inaccessible]> sample_disk.

Definition get (p : string) (d : gmap Path Node) : Incoming :=
  {| at_disk := d; at_time := "Wed, 04 Nov 2026 10:00:05 GMT";
     method := lit "GET"; target := lit p |}.

Definition args_with (open : bool) (timeout port : Z) : Args :=
  {| file := lit "a.fits"; open := open; timeout := timeout; port := port |}.

End MoreSamples.

(* ===================================================================== *)
(** * Properties *)
(* ===================================================================== *)

(** ** Strings *)

Section StringFacts.

Lemma latin1_lit (s : string) : latin1 (lit s) = true.
Proof.
  unfold latin1, lit. apply forallb_forall. intros c Hc.
  apply in_map_iff in Hc as (a & <- & _).
  unfold latin1_char. apply N.ltb_lt. apply N_ascii_bounded.
Qed.

Lemma latin1_app (s t : pystr) :
  latin1 (s ++ t) = latin1 s && latin1 t.
Proof. apply forallb_app. Qed.

Lemma latin1_str_of_int (n : Z) : latin1 (str_of_int n) = true.
Proof. apply latin1_lit. Qed.

(** [int(str(n)) == n] *)
Lemma int_of_str_of_int (n : Z) : int_of_str (str_of_int n) = Some n.
Proof.
  unfold int_of_str, str_of_int, lit.
  rewrite map_map, (map_ext _ id), map_id, string_of_list_ascii_of_string
    by (intros a; apply ascii_N_embedding).
  rewrite NilZero.isi.
  - cbn. f_equal. apply DecimalZ.of_to.
  - destruct n; cbn; try discriminate.
    intros [= E]. by apply DecimalPos.Unsigned.to_uint_nonnil in E.
  - destruct n; cbn; try discriminate.
    intros [= E]. by apply DecimalPos.Unsigned.to_uint_nonnil in E.
Qed.

Lemma break_app (p : N -> bool) (s : pystr) :
  (break p s).1 ++ (break p s).2 = s.
Proof.
  induction s as [|x s IH]; simpl; [done|].
  destruct (p x); simpl; [done|].
  destruct (break p s) as [a b]; simpl in *. by rewrite IH.
Qed.

Lemma break_stop (p : N -> bool) (s t : pystr) (x : N) :
  p x = true ->
  break p (s ++ x :: t) = ((break p s).1, (break p s).2 ++ x :: t).
Proof.
  intros Hx. induction s as [|y s IH]; simpl.
  - by rewrite Hx.
  - destruct (p y); simpl; [done|].
    rewrite IH. by destruct (break p s).
Qed.

Lemma break_cons_fst (p : N -> bool) (x : N) (s : pystr) :
  (break p (x :: s)).1 = if p x then [] else x :: (break p s).1.
Proof. simpl. destruct (p x); [done|]. by destruct (break p s). Qed.

Lemma break_cons_snd (p : N -> bool) (x : N) (s : pystr) :
  (break p (x :: s)).2 = if p x then x :: s else (break p s).2.
Proof. simpl. destruct (p x); [done|]. by destruct (break p s). Qed.

Lemma break_break (p q : N -> bool) (s : pystr) :
  (break p (break q s).1).1 = (break (fun c => p c || q c) s).1.
Proof.
  induction s as [|x s IH]; [done|].
  rewrite !break_cons_fst.
  destruct (q x) eqn:Hq.
  - by rewrite orb_true_r.
  - rewrite orb_false_r, break_cons_fst.
    destruct (p x); [done|]. by rewrite IH.
Qed.

(** [index_of] against [break]: the index found is the length of the
    prefix, and nothing is found exactly when the rest is empty. *)
Lemma index_of_break (c : N) (s : pystr) :
  index_of c s =
    match (break (N.eqb c) s).2 with
    | [] => None
    | _ => Some (length (break (N.eqb c) s).1)
    end.
Proof.
  induction s as [|x s IH]; simpl; [done|].
  destruct (N.eqb c x); simpl; [done|].
  rewrite IH. destruct (break (N.eqb c) s) as [a b]; simpl.
  by destruct b.
Qed.

Lemma contains_break (c : N) (s : pystr) :
  contains c s =
    match (break (N.eqb c) s).2 with
    | [] => false
    | _ => true
    end.
Proof.
  unfold contains. induction s as [|x s IH]; simpl; [done|].
  destruct (N.eqb c x); simpl; [done|].
  rewrite IH. destruct (break (N.eqb c) s) as [a b]; simpl.
  by destruct b.
Qed.

Lemma break_fst_length (p : N -> bool) (s : pystr) :
  (length (break p s).1 <= length s)%nat.
Proof.
  rewrite <- (break_app p s) at 2. rewrite length_app. lia.
Qed.

Lemma take_break (p : N -> bool) (s : pystr) :
  take (length (break p s).1) s = (break p s).1.
Proof.
  rewrite <- (break_app p s) at 2. by rewrite take_app_length.
Qed.

Lemma drop_break (p : N -> bool) (s : pystr) :
  drop (length (break p s).1) s = (break p s).2.
Proof.
  rewrite <- (break_app p s) at 2. by rewrite drop_app_length.
Qed.

(** [s.split(c, 1)[0]] when [c in s], [s] otherwise. *)
Lemma cut_break (c : N) (s : pystr) :
  (if contains c s then split1 c s else (s, [])).1 = (break (N.eqb c) s).1.
Proof.
  rewrite contains_break. unfold split1, find, upto.
  rewrite index_of_break.
  destruct (break (N.eqb c) s).2 eqn:E; simpl.
  - rewrite <- (break_app (N.eqb c) s) at 1. rewrite E. by rewrite app_nil_r.
  - rewrite Nat2Z.id. apply take_break.
Qed.

End StringFacts.

(** ** urlparse: a query string never changes the path found *)

Section UrlParseFacts.
Context `{Platform}.
Import UrlParse.

Lemma urlsplit_steps (url : pystr) :
  urlsplit url =
    (let '(scheme, url) := split_scheme (normalize url) in
     '(netloc, url) ← split_netloc url;
     let '(url, fragment) := split_fragment url in
     let '(url, query) := split_query url in
     if negb (_checknetloc netloc)
     then Raise (ValueError
                   (lit "netloc contains invalid characters under NFKC normalization"))
     else Ok {| sr_scheme := scheme; sr_netloc := netloc; sr_path := url;
                sr_query := query; sr_fragment := fragment |}).
Proof. reflexivity. Qed.

Lemma urlparse_steps (url : pystr) :
  urlparse url =
    (splitresult ← urlsplit url;
     let '(url, params) :=
       split_params (sr_scheme splitresult) (sr_path splitresult) in
     Ok {| scheme := sr_scheme splitresult; netloc := sr_netloc splitresult;
           path := url; params := params;
           query := sr_query splitresult;
           fragment := sr_fragment splitresult |}).
Proof. reflexivity. Qed.

Lemma lstrip_stop (strip : N -> bool) (s t : pystr) (x : N) :
  strip x = false ->
  lstrip strip (s ++ x :: t) = lstrip strip s ++ x :: t.
Proof.
  intros Hx. induction s as [|y s IH]; simpl.
  - by rewrite Hx.
  - destruct (strip y); [done|reflexivity].
Qed.

Lemma remove_stop (b x : N) (s t : pystr) :
  x ≠ b -> remove b (s ++ x :: t) = remove b s ++ x :: remove b t.
Proof.
  intros Hx. unfold remove. by rewrite filter_app, filter_cons_True.
Qed.

Lemma normalize_query (P Q : pystr) :
  normalize (P ++ chr "?" :: Q) = normalize P ++ chr "?" :: remove_unsafe Q.
Proof.
  unfold normalize. rewrite lstrip_stop by reflexivity.
  unfold remove_unsafe. simpl.
  by rewrite !remove_stop by (by compute).
Qed.

Lemma break_found (p : N -> bool) (s t : pystr) :
  (break p s).2 ≠ [] ->
  break p (s ++ t) = ((break p s).1, (break p s).2 ++ t).
Proof.
  induction s as [|x s IH]; [done|].
  rewrite break_cons_snd. simpl.
  destruct (p x); [done|]. intros Hne.
  rewrite IH by done. by destruct (break p s).
Qed.

Lemma break_not_found (p : N -> bool) (s t : pystr) :
  (break p s).2 = [] ->
  break p (s ++ t) = (s ++ (break p t).1, (break p t).2).
Proof.
  induction s as [|x s IH]; simpl.
  - by destruct (break p t).
  - destruct (p x); [done|].
    destruct (break p s) as [a b] eqn:E. simpl. intros ->.
    rewrite IH by done. by destruct (break p t).
Qed.

Lemma find_break (c : N) (s : pystr) :
  find c s =
    match (break (N.eqb c) s).2 with
    | [] => -1
    | _ => Z.of_nat (length (break (N.eqb c) s).1)
    end.
Proof.
  unfold find. rewrite index_of_break.
  by destruct (break (N.eqb c) s).2.
Qed.

Lemma split_scheme_query (u Q : pystr) :
  split_scheme (u ++ chr "?" :: Q) =
    ((split_scheme u).1, (split_scheme u).2 ++ chr "?" :: Q).
Proof.
  unfold split_scheme. rewrite !find_break.
  destruct (break (N.eqb (chr ":")) u) as [a b] eqn:E.
  destruct b as [|y b].
  - (* no colon before the question mark *)
    assert (Ha : a = u).
    { rewrite <- (break_app (N.eqb (chr ":")) u), E. simpl.
      symmetry. apply app_nil_r. }
    subst a.
    assert (Hb : break (N.eqb (chr ":")) (u ++ chr "?" :: Q)
                 = (u ++ chr "?" :: (break (N.eqb (chr ":")) Q).1,
                    (break (N.eqb (chr ":")) Q).2)).
    { rewrite break_not_found by (by rewrite E).
      by rewrite break_cons_fst, break_cons_snd. }
    pose proof (take_break (N.eqb (chr ":")) (u ++ chr "?" :: Q)) as Ht.
    rewrite Hb in Ht |- *. cbn [fst snd] in Ht |- *.
    destruct (break (N.eqb (chr ":")) Q).2 eqn:EQ; [done|].
    unfold upto. rewrite Nat2Z.id, Ht.
    rewrite forallb_app.
    replace (forallb scheme_char (chr "?" :: (break (N.eqb (chr ":")) Q).1))
      with false by reflexivity.
    by rewrite andb_false_r, andb_false_r.
  - (* the colon lies before the question mark *)
    rewrite break_found by (by rewrite E).
    rewrite E. cbn [fst snd]. rewrite <- app_comm_cons. cbv iota.
    assert (Hu : u = a ++ y :: b).
    { rewrite <- (break_app (N.eqb (chr ":")) u), E. done. }
    unfold upto, from.
    replace (Z.to_nat (Z.of_nat (length a) + 1)) with (S (length a)) by lia.
    rewrite Nat2Z.id.
    assert (Hlen : (S (length a) <= length u)%nat).
    { rewrite Hu, length_app. simpl. lia. }
    assert (Htake : take (length a) (u ++ chr "?" :: Q) = take (length a) u).
    { apply take_app_le. lia. }
    assert (Hdrop : drop (S (length a)) (u ++ chr "?" :: Q)
                    = drop (S (length a)) u ++ chr "?" :: Q).
    { apply drop_app_le. lia. }
    rewrite Htake, Hdrop.
    assert (Hhd : (0 <? Z.of_nat (length a)) = true ->
                  hd 0%N (u ++ chr "?" :: Q) = hd 0%N u).
    { intros Hpos. apply Z.ltb_lt in Hpos.
      subst u. destruct a; simpl in *; [lia|done]. }
    destruct (0 <? Z.of_nat (length a)) eqn:Hpos; [|done].
    rewrite Hhd by done.
    by destruct (true && ascii_alpha (hd 0%N u)
                 && forallb scheme_char (take (length a) u)).
Qed.

(** [_splitnetloc url 2] on a URL that starts with two code points is a
    [break] of what follows them at the first of '/', '?' and '#'. *)
Lemma break_nil_length (p : N -> bool) (s : pystr) :
  (break p s).2 = [] -> length (break p s).1 = length s.
Proof.
  intros E. rewrite <- (break_app p s) at 2.
  rewrite E, app_nil_r. done.
Qed.

Lemma find_from_2 (c x y : N) (s : pystr) :
  find_from c 2 (x :: y :: s) =
    match (break (N.eqb c) s).2 with
    | [] => -1
    | _ => 2 + Z.of_nat (length (break (N.eqb c) s).1)
    end.
Proof.
  unfold find_from. change (Z.to_nat 2) with 2%nat. cbn [drop].
  rewrite drop_0.
  rewrite index_of_break. by destruct (break (N.eqb c) s).2.
Qed.

Lemma delim_step (d : Z) (c : N) (s : pystr) :
  d <= 2 + Z.of_nat (length s) ->
  (let wdelim :=
     match (break (N.eqb c) s).2 with
     | [] => -1
     | _ => 2 + Z.of_nat (length (break (N.eqb c) s).1)
     end in
   if 0 <=? wdelim then Z.min d wdelim else d)
  = Z.min d (2 + Z.of_nat (length (break (N.eqb c) s).1)).
Proof.
  intros Hd. cbv zeta.
  destruct (break (N.eqb c) s).2 eqn:E.
  - rewrite (break_nil_length _ _ E). simpl. lia.
  - destruct (0 <=? _) eqn:E0; [done|].
    apply Z.leb_gt in E0. lia.
Qed.

Lemma break_delim_length (s : pystr) :
  length (break is_delim s).1 =
    (length (break (N.eqb (chr "/")) s).1
     `min` (length (break (N.eqb (chr "?")) s).1
            `min` length (break (N.eqb (chr "#")) s).1))%nat.
Proof.
  induction s as [|x s IH]; [done|].
  rewrite !break_cons_fst.
  replace (is_delim x)
    with (N.eqb (chr "/") x || (N.eqb (chr "?") x || N.eqb (chr "#") x))
    by reflexivity.
  destruct (N.eqb (chr "/") x); [done|].
  destruct (N.eqb (chr "?") x); [done|].
  destruct (N.eqb (chr "#") x); cbn [orb length]; [lia|].
  rewrite IH. lia.
Qed.

Lemma splitnetloc_break (x y : N) (s : pystr) :
  _splitnetloc (x :: y :: s) 2 = break is_delim s.
Proof.
  unfold _splitnetloc. cbn [fold_left].
  rewrite !find_from_2.
  pose proof (break_fst_length (N.eqb (chr "/")) s) as H1.
  pose proof (break_fst_length (N.eqb (chr "?")) s) as H2.
  pose proof (break_fst_length (N.eqb (chr "#")) s) as H3.
  rewrite (delim_step _ (chr "/") s) by (simpl length; lia).
  rewrite (delim_step _ (chr "?") s) by (simpl length; lia).
  rewrite (delim_step _ (chr "#") s) by (simpl length; lia).
  set (m := length (break is_delim s).1).
  assert (Hm : Z.to_nat
                 (Z.min
                    (Z.min
                       (Z.min (Z.of_nat (length (x :: y :: s)))
                          (2 + Z.of_nat (length (break (N.eqb (chr "/")) s).1)))
                       (2 + Z.of_nat (length (break (N.eqb (chr "?")) s).1)))
                    (2 + Z.of_nat (length (break (N.eqb (chr "#")) s).1)))
               = S (S m)).
  { unfold m. rewrite break_delim_length. simpl length. lia. }
  unfold upto, from. rewrite Hm. change (Z.to_nat 2) with 2%nat.
  cbn [take drop]. unfold m.
  rewrite take_break, drop_break. by destruct (break is_delim s).
Qed.

Lemma split_netloc_query (u Q : pystr) :
  split_netloc (u ++ chr "?" :: Q) =
    (fun nr => (nr.1, nr.2 ++ chr "?" :: Q)) <$> split_netloc u.
Proof.
  unfold split_netloc, upto. change (Z.to_nat 2) with 2%nat.
  destruct u as [|x [|y s]].
  - reflexivity.
  - cbn [app take]. rewrite !bool_decide_eq_false_2; [done|..].
    + intros [=].
    + destruct Q; intros [=].
  - rewrite <- !app_comm_cons. cbn [take]. rewrite ?take_0.
    destruct (bool_decide ([x; y] = lit "//")); [|reflexivity].
    rewrite !splitnetloc_break.
    rewrite break_stop by reflexivity.
    destruct (break is_delim s) as [n r]. cbn [fst snd].
    repeat (match goal with
            | |- context [if ?b then _ else _] => destruct b
            end; try reflexivity).
Qed.

Lemma path_part_break (url : pystr) :
  (split_query (split_fragment url).1).1
  = (break (fun c => N.eqb (chr "?") c || N.eqb (chr "#") c) url).1.
Proof.
  unfold split_query, split_fragment.
  rewrite (cut_break (chr "#") url).
  rewrite (cut_break (chr "?")).
  apply break_break.
Qed.

Lemma path_part_query (r Q : pystr) :
  (split_query (split_fragment (r ++ chr "?" :: Q)).1).1
  = (split_query (split_fragment r).1).1.
Proof.
  rewrite !path_part_break. by rewrite break_stop by reflexivity.
Qed.

(** The outcome of [urlparse] on [P?Q] agrees with its outcome on [P]. *)
Lemma urlparse_query (P Q : pystr) :
  agree (urlparse (P ++ chr "?" :: Q)) (urlparse P).
Proof.
  rewrite !urlparse_steps, !urlsplit_steps.
  rewrite normalize_query, split_scheme_query.
  destruct (split_scheme (normalize P)) as [sch u]. cbn [fst snd].
  rewrite split_netloc_query.
  destruct (split_netloc u) as [[n r]|e]; [|reflexivity].
  cbn [fmap result_fmap mbind result_bind fst snd].
  pose proof (path_part_query r (remove_unsafe Q)) as Hpath.
  destruct (split_fragment (r ++ chr "?" :: remove_unsafe Q)) as [u1 f1].
  destruct (split_fragment r) as [u2 f2]. cbn [fst] in Hpath.
  destruct (split_query u1) as [p1 q1].
  destruct (split_query u2) as [p2 q2]. cbn [fst] in Hpath. subst p2.
  destruct (_checknetloc n); cbn [negb]; [|reflexivity].
  cbn [sr_scheme sr_path sr_netloc].
  unfold agree. cbn.
  by destruct (split_params sch p1) as [p params].
Qed.

Lemma urlparse_query_path (P Q : pystr) :
  path <$> urlparse (P ++ lit "?" ++ Q) = path <$> urlparse P.
Proof.
  change (P ++ lit "?" ++ Q) with (P ++ chr "?" :: Q).
  pose proof (urlparse_query P Q) as Ha. unfold agree in Ha.
  destruct (urlparse (P ++ chr "?" :: Q)) as [a|e1],
           (urlparse P) as [b|e2]; try done.
  - destruct Ha as (_ & _ & Hp & _). cbn. by rewrite Hp.
  - by subst.
Qed.

End UrlParseFacts.

(** ** The response primitives *)

Section ReasonFacts.
Context `{Platform}.
Import Handler.

Lemma latin1_reason_default (code : Z) :
  latin1 (reason_phrase code None) = true.
Proof.
  unfold reason_phrase. destruct (responses code) as [[short long]|].
  - apply latin1_lit.
  - reflexivity.
Qed.

End ReasonFacts.

(** Symbolic execution of a statement: unfold the primitives, decide the
    encodings of literals. *)
Ltac unfold_prims :=
  cbv beta iota zeta delta
    [mbind M_bind mret M_ret pass lift raise try_except
     Handler.send_response Handler.send_response_only Handler.send_header
     Handler.end_headers
     Handler.log_request Handler.log_error Handler.log_message
     buffer_line flush_headers wfile_write andb default from_option id
     Handler.error_content_type].

Ltac run :=
  repeat (progress (unfold_prims;
                    rewrite ?latin1_lit, ?latin1_str_of_int,
                            ?latin1_reason_default)).

Section HandlerFacts.
Context `{Platform}.
Import Handler.

Lemma send_header_run (self : Self) (keyword value : pystr) (s : Process) :
  latin1 keyword = true -> latin1 value = true ->
  send_header self keyword value s
  = (Ok (), buffered (HeaderLine keyword value) s).
Proof. intros Hk Hv. unfold send_header. by rewrite Hk, Hv. Qed.

Lemma send_header_raises (self : Self) (keyword value : pystr) (s : Process) :
  latin1 value = false ->
  send_header self keyword value s = (Raise UnicodeEncodeError, s).
Proof. intros Hv. unfold send_header. by rewrite Hv, andb_false_r. Qed.

Lemma bind_run {A B} (m : M A) (f : A -> M B) (s s' : Process) (a : A) :
  m s = (Ok a, s') -> (m ≫= f) s = f a s'.
Proof. intros E. unfold mbind, M_bind. by rewrite E. Qed.

Lemma bind_lift {A B} (r : result A) (f : A -> M B) (s : Process) :
  (lift r ≫= f) s
  = match r with
    | Ok a => f a s
    | Raise e => (Raise e, s)
    end.
Proof. by destruct r. Qed.

Lemma send_response_run (self : Self) (code : Z) (message : option pystr)
    (s : Process) :
  latin1 (reason_phrase code message) = true ->
  send_response self code message s
  = (Ok (),
     buffered (HeaderLine (lit "Date") (lit (date_time_string self)))
       (buffered (HeaderLine (lit "Server") (lit version_string))
          (buffered (StatusLine code (reason_phrase code message)) s))).
Proof.
  intros Hm. unfold send_response.
  erewrite bind_run by reflexivity.
  erewrite bind_run
    by (unfold send_response_only; cbv zeta; rewrite Hm; reflexivity).
  erewrite bind_run by (apply send_header_run; apply latin1_lit).
  apply send_header_run; apply latin1_lit.
Qed.

Lemma wfile_buffered (l : Line) (s : Process) :
  wfile (buffered l s) = wfile s.
Proof. reflexivity. Qed.

Lemma headers_buffer_buffered (l : Line) (s : Process) :
  _headers_buffer (buffered l s) = _headers_buffer s ++ [l].
Proof. reflexivity. Qed.

Lemma wfile_flushed (s : Process) :
  wfile (flushed s) = wfile s ++ [Head (_headers_buffer s)].
Proof. reflexivity. Qed.

Lemma wfile_written (data : list Byte.byte) (s : Process) :
  wfile (written data s) = wfile s ++ [Data data].
Proof. reflexivity. Qed.

(** [send_error] with a reason phrase that encodes: it does not raise, and
    what it writes starts with the status line. *)
Lemma send_error_run (self : Self) (code : Z) (message : pystr) (s : Process) :
  latin1 message = true ->
  exists lines rest s',
    send_error self code (Some message) s = (Ok (), s')
    /\ wfile s' = wfile s
                  ++ Head (_headers_buffer s
                           ++ StatusLine code message :: lines) :: rest.
Proof.
  intros Hm. unfold send_error.
  set (table := match responses code with
                | Some (s0, l) => (lit s0, lit l)
                | None => (lit "???", lit "???")
                end).
  destruct table as [shortmsg longmsg]. cbv zeta.
  change (default shortmsg (Some message)) with message.
  erewrite bind_run by reflexivity.
  erewrite bind_run by (apply send_response_run; exact Hm).
  erewrite bind_run by (apply send_header_run; apply latin1_lit).
  destruct ((200 <=? code) && negb (bool_decide (code ∈ [204; 205; 304]))).
  - erewrite bind_run; cycle 1.
    { erewrite bind_run by (apply send_header_run; apply latin1_lit).
      erewrite bind_run
        by (apply send_header_run;
            [apply latin1_lit | apply latin1_str_of_int]).
      reflexivity. }
    erewrite bind_run by reflexivity.
    set (page := error_page code message longmsg).
    exists [HeaderLine (lit "Server") (lit version_string);
            HeaderLine (lit "Date") (lit (date_time_string self));
            HeaderLine (lit "Connection") (lit "close");
            HeaderLine (lit "Content-Type") error_content_type;
            HeaderLine (lit "Content-Length")
                       (str_of_int (Z.of_nat (length page)))].
    exists (match page with
            | [] => []
            | _ => if bool_decide (command self ≠ lit "HEAD")
                   then [Data page] else []
            end).
    destruct page as [|b bs];
      [| destruct (bool_decide (command self ≠ lit "HEAD"))];
      (eexists; split; [reflexivity|]);
      rewrite ?wfile_written, wfile_flushed;
      rewrite !headers_buffer_buffered, !wfile_buffered;
      rewrite <- ?app_assoc; reflexivity.
  - erewrite bind_run by reflexivity.
    erewrite bind_run by reflexivity.
    exists [HeaderLine (lit "Server") (lit version_string);
            HeaderLine (lit "Date") (lit (date_time_string self));
            HeaderLine (lit "Connection") (lit "close")].
    exists []. eexists. split; [reflexivity|].
    rewrite wfile_flushed.
    rewrite !headers_buffer_buffered, !wfile_buffered.
    rewrite <- ?app_assoc. reflexivity.
Qed.

(** The head of a 200 response, as [send_response(200)] and the
    [send_header] calls that follow it leave it in the buffer. *)
Lemma serve_fits_file_ok (self : Self) (p : Path) (data : list Byte.byte)
    (s : Process) :
  file_path (server self) = Some p ->
  disk self !! p = Some (RegularFile data) ->
  latin1 (name p) = true ->
  _serve_fits_file self s
  = (Ok (),
     written data
       (flushed
          (buffered (HeaderLine (lit "X-Masking-File-Name") (name p))
          (buffered (HeaderLine (lit "Content-Length")
                                (str_of_int (Z.of_nat (length data))))
          (buffered (HeaderLine (lit "Cache-Control") (lit "no-store"))
          (buffered (HeaderLine (lit "Content-Type")
                                (lit "application/octet-stream"))
          (buffered (HeaderLine (lit "Date") (lit (date_time_string self)))
          (buffered (HeaderLine (lit "Server") (lit version_string))
          (buffered (StatusLine 200 (reason_phrase 200 None)) s))))))))).
Proof.
  intros Hp Hd Hn. unfold _serve_fits_file.
  rewrite Hp, bind_lift. unfold exists_, read_bytes. rewrite Hd.
  cbn [negb]. run. rewrite Hn. run. reflexivity.
Qed.

Lemma serve_fits_file_crash (self : Self) (p : Path) (data : list Byte.byte)
    (s : Process) :
  file_path (server self) = Some p ->
  disk self !! p = Some (RegularFile data) ->
  latin1 (name p) = false ->
  (_serve_fits_file self s).1 = Raise UnicodeEncodeError
  /\ wfile (_serve_fits_file self s).2 = wfile s.
Proof.
  intros Hp Hd Hn. unfold _serve_fits_file.
  rewrite Hp, bind_lift. unfold exists_, read_bytes. rewrite Hd.
  cbn [negb]. run. rewrite Hn. run. by cbn.
Qed.

Lemma wrote_send_error (self : Self) (code : Z) (message : pystr) :
  latin1 message = true ->
  exists lines rest,
    wrote (send_error self code (Some message))
    = Head (StatusLine code message :: lines) :: rest.
Proof.
  intros Hm.
  destruct (send_error_run self code message initial Hm)
    as (lines & rest & s' & E & Hw).
  exists lines, rest. unfold wrote. rewrite E. exact Hw.
Qed.

(** The three resource handlers, by what is on disk. *)
Lemma serve_masking_html_cases (self : Self) :
  match disk self !! html_path (server self) with
  | Some (RegularFile data) =>
      wrote (_serve_masking_html self)
      = [Head [StatusLine 200 (reason_phrase 200 None);
               HeaderLine (lit "Server") (lit version_string);
               HeaderLine (lit "Date") (lit (date_time_string self));
               HeaderLine (lit "Content-Type") (lit "text/html; charset=utf-8");
               HeaderLine (lit "Cache-Control") (lit "no-store");
               HeaderLine (lit "Content-Length")
                          (str_of_int (Z.of_nat (length data)))];
         Data data]
  | _ =>
      exists lines rest,
        wrote (_serve_masking_html self)
        = Head (StatusLine 500 (lit "Failed to load Masking.html") :: lines)
            :: rest
  end.
Proof.
  destruct (disk self !! html_path (server self)) as [[data| |]|] eqn:Hd.
  - unfold wrote, _serve_masking_html, read_bytes. rewrite Hd. run.
    reflexivity.
  - destruct (wrote_send_error self 500 (lit "Failed to load Masking.html")
                (latin1_lit _)) as (lines & rest & E).
    exists lines, rest. rewrite <- E.
    unfold wrote, _serve_masking_html, read_bytes. rewrite Hd.
    unfold mbind, M_bind, mret, M_ret, lift, try_except.
    by destruct (send_error _ _ _ initial) as [[[]|e] s'].
  - destruct (wrote_send_error self 500 (lit "Failed to load Masking.html")
                (latin1_lit _)) as (lines & rest & E).
    exists lines, rest. rewrite <- E.
    unfold wrote, _serve_masking_html, read_bytes. rewrite Hd.
    unfold mbind, M_bind, mret, M_ret, lift, try_except.
    by destruct (send_error _ _ _ initial) as [[[]|e] s'].
  - destruct (wrote_send_error self 500 (lit "Failed to load Masking.html")
                (latin1_lit _)) as (lines & rest & E).
    exists lines, rest. rewrite <- E.
    unfold wrote, _serve_masking_html, read_bytes. rewrite Hd.
    unfold mbind, M_bind, mret, M_ret, lift, try_except.
    by destruct (send_error _ _ _ initial) as [[[]|e] s'].
Qed.

Lemma serve_static_file_cases (self : Self) (name content_type : pystr) :
  match disk self !! joinpath (static_dir (server self)) name with
  | Some (RegularFile data) =>
      if latin1 content_type then
        wrote (_serve_static_file self name content_type)
        = [Head [StatusLine 200 (reason_phrase 200 None);
                 HeaderLine (lit "Server") (lit version_string);
                 HeaderLine (lit "Date") (lit (date_time_string self));
                 HeaderLine (lit "Content-Type") content_type;
                 HeaderLine (lit "Cache-Control") (lit "no-store");
                 HeaderLine (lit "Content-Length")
                            (str_of_int (Z.of_nat (length data)))];
           Data data]
      else wrote (_serve_static_file self name content_type) = []
  | Some _ =>
      exists lines rest,
        wrote (_serve_static_file self name content_type)
        = Head (StatusLine 500 (lit "Failed to load static file") :: lines)
            :: rest
  | None =>
      exists lines rest,
        wrote (_serve_static_file self name content_type)
        = Head (StatusLine 404 (lit "Not Found") :: lines) :: rest
  end.
Proof.
  destruct (disk self !! joinpath (static_dir (server self)) name)
    as [[data| |]|] eqn:Hd.
  - destruct (latin1 content_type) eqn:Hct;
      unfold wrote, _serve_static_file, exists_, read_bytes;
      rewrite Hd; run; cbn [negb]; run; rewrite Hct; run;
      reflexivity.
  - destruct (wrote_send_error self 500 (lit "Failed to load static file")
                (latin1_lit _)) as (lines & rest & E).
    exists lines, rest. rewrite <- E.
    unfold wrote, _serve_static_file, exists_, read_bytes.
    rewrite Hd. cbn [negb].
    unfold mbind, M_bind, mret, M_ret, lift, try_except.
    cbv beta iota. cbn [negb]. cbv beta iota.
    by destruct (send_error _ _ _ initial) as [[[]|e] s'].
  - destruct (wrote_send_error self 500 (lit "Failed to load static file")
                (latin1_lit _)) as (lines & rest & E).
    exists lines, rest. rewrite <- E.
    unfold wrote, _serve_static_file, exists_, read_bytes.
    rewrite Hd. cbn [negb].
    unfold mbind, M_bind, mret, M_ret, lift, try_except.
    cbv beta iota. cbn [negb]. cbv beta iota.
    by destruct (send_error _ _ _ initial) as [[[]|e] s'].
  - destruct (send_error_run self 404 (lit "Not Found") initial (latin1_lit _))
      as (lines & rest & s' & E & Hw).
    exists lines, rest.
    unfold wrote, _serve_static_file, exists_.
    rewrite Hd. cbn [negb].
    unfold mbind, M_bind, mret, M_ret, lift, try_except.
    cbv beta iota. cbn [negb]. cbv beta iota.
    rewrite E. exact Hw.
Qed.

Lemma serve_fits_file_cases (self : Self) :
  match file_path (server self) with
  | None =>
      exists lines rest,
        wrote (_serve_fits_file self)
        = Head (StatusLine 404 (lit "File not found") :: lines) :: rest
  | Some p =>
      match disk self !! p with
      | None =>
          exists lines rest,
            wrote (_serve_fits_file self)
            = Head (StatusLine 404 (lit "File not found") :: lines) :: rest
      | Some Inaccessible =>
          (exists e, (_serve_fits_file self initial).1 = Raise e)
          /\ wrote (_serve_fits_file self) = []
      | Some Unreadable =>
          exists lines rest,
            wrote (_serve_fits_file self)
            = Head (StatusLine 500 (lit "Failed to read file") :: lines) :: rest
      | Some (RegularFile data) =>
          if latin1 (name p) then
            wrote (_serve_fits_file self)
            = [Head [StatusLine 200 (reason_phrase 200 None);
                     HeaderLine (lit "Server") (lit version_string);
                     HeaderLine (lit "Date") (lit (date_time_string self));
                     HeaderLine (lit "Content-Type")
                                (lit "application/octet-stream");
                     HeaderLine (lit "Cache-Control") (lit "no-store");
                     HeaderLine (lit "Content-Length")
                                (str_of_int (Z.of_nat (length data)));
                     HeaderLine (lit "X-Masking-File-Name") (name p)];
               Data data]
          else
            (_serve_fits_file self initial).1 = Raise UnicodeEncodeError
            /\ wrote (_serve_fits_file self) = []
      end
  end.
Proof.
  destruct (file_path (server self)) as [p|] eqn:Hp.
  - destruct (disk self !! p) as [[data| |]|] eqn:Hd.
    + destruct (latin1 (name p)) eqn:Hn.
      * unfold wrote. by rewrite (serve_fits_file_ok self p data initial).
      * apply (serve_fits_file_crash self p data initial); done.
    + destruct (wrote_send_error self 500 (lit "Failed to read file")
                  (latin1_lit _)) as (lines & rest & E).
      exists lines, rest. rewrite <- E.
      unfold wrote, _serve_fits_file, exists_, read_bytes.
      rewrite Hp, Hd. cbn [negb].
      unfold mbind, M_bind, mret, M_ret, lift, try_except.
      cbv beta iota. cbn [negb]. cbv beta iota.
      by destruct (send_error _ _ _ initial) as [[[]|e] s'].
    + unfold wrote, _serve_fits_file, exists_.
      rewrite Hp, bind_lift, Hd. cbn. eauto.
    + destruct (wrote_send_error self 404 (lit "File not found")
                  (latin1_lit _)) as (lines & rest & E).
      exists lines, rest. rewrite <- E.
      unfold wrote, _serve_fits_file, exists_.
      rewrite Hp, bind_lift, Hd. reflexivity.
  - destruct (wrote_send_error self 404 (lit "File not found")
                (latin1_lit _)) as (lines & rest & E).
    exists lines, rest. rewrite <- E.
    unfold wrote, _serve_fits_file. by rewrite Hp.
Qed.

(** *** Routing *)

Lemma do_GET_dispatch (self : Self) (s : Process) :
  do_GET self s
  = (r ← lift (route_of (path self)); dispatch self r) s.
Proof.
  unfold do_GET, route_of, mbind, M_bind, lift.
  destruct (UrlParse.urlparse (path self)) as [parsed|e]; [|reflexivity].
  cbn [fmap result_fmap]. unfold route, dispatch.
  repeat case_bool_decide; reflexivity.
Qed.

Lemma handle_GET (self : Self) (target : pystr) :
  handle_one_request (GET self target) = do_GET (GET self target).
Proof. reflexivity. Qed.

Lemma reply_GET (self : Self) (target : pystr) :
  reply (GET self target)
  = match route_of target with
    | Ok r => wrote (dispatch (GET self target) r)
    | Raise _ => []
    end.
Proof.
  unfold reply. rewrite handle_GET. unfold wrote.
  rewrite do_GET_dispatch. unfold mbind, M_bind, lift. cbn [path GET request_for].
  by destruct (route_of target).
Qed.

Lemma handle_other (self : Self) (verb target : pystr) :
  verb ≠ lit "GET" ->
  handle_one_request (request_for self verb target)
  = send_error (request_for self verb target) 501
      (Some (lit "Unsupported method (" ++ py_repr verb ++ lit ")")).
Proof.
  intros Hv. unfold handle_one_request. cbn [command request_for].
  cbn [getattr do_methods].
  rewrite bool_decide_eq_false_2; [reflexivity|].
  change (lit "do_GET") with (lit "do_" ++ lit "GET").
  intros E. apply app_inv_head in E. congruence.
Qed.

End HandlerFacts.

(** ** Handlers are quiet *)

Section QuietFacts.
Context `{Platform}.
Import Handler.

Lemma quiet_ret {A} (a : A) : quiet (mret a).
Proof. by intros s. Qed.

Lemma quiet_raise {A} (e : exn) : quiet (@raise A e).
Proof. by intros s. Qed.

Lemma quiet_lift {A} (r : result A) : quiet (lift r).
Proof. by intros s. Qed.

Lemma quiet_bind {A B} (m : M A) (f : A -> M B) :
  quiet m -> (forall a, quiet (f a)) -> quiet (m ≫= f).
Proof.
  intros Hm Hf s. unfold mbind, M_bind.
  specialize (Hm s). destruct (m s) as [[a|e] s']; cbn [snd] in *.
  - destruct (Hf a s') as (-> & -> & ->). done.
  - done.
Qed.

Lemma quiet_try {A} (body handler : M A) :
  quiet body -> quiet handler -> quiet (try_except body handler).
Proof.
  intros Hb Hh s. unfold try_except.
  specialize (Hb s). destruct (body s) as [[a|e] s']; cbn [snd] in *.
  - done.
  - destruct (Hh s') as (-> & -> & ->). done.
Qed.

Lemma quiet_buffer_line (l : Line) : quiet (buffer_line l).
Proof. by intros s. Qed.

Lemma quiet_flush_headers : quiet flush_headers.
Proof. by intros s. Qed.

Lemma quiet_wfile_write (data : list Byte.byte) : quiet (wfile_write data).
Proof. by intros s. Qed.

Lemma quiet_log_message (self : Self) (format : pystr) (args : list pystr) :
  quiet (log_message self format args).
Proof. by intros s. Qed.

Create HintDb quiet.

#[local] Hint Resolve quiet_ret quiet_raise quiet_lift quiet_buffer_line
  quiet_flush_headers quiet_wfile_write quiet_log_message : quiet.

(** Decompose a statement along its binds and branches. *)
Ltac quiet_auto :=
  repeat first
    [ solve [auto with quiet nocore]
    | apply quiet_try
    | match goal with
      | |- quiet (if ?b then _ else _) => destruct b
      | |- quiet (match ?x with _ => _ end) => destruct x
      end
    | apply quiet_bind; [|intros ?] ].

Lemma quiet_send_header (self : Self) (keyword value : pystr) :
  quiet (send_header self keyword value).
Proof. unfold send_header. quiet_auto. Qed.

#[local] Hint Resolve quiet_send_header : quiet.

Lemma quiet_send_response (self : Self) (code : Z) (message : option pystr) :
  quiet (send_response self code message).
Proof.
  unfold send_response, send_response_only, log_request. cbv zeta.
  quiet_auto.
Qed.

#[local] Hint Resolve quiet_send_response : quiet.

Lemma quiet_send_error (self : Self) (code : Z) (message : option pystr) :
  quiet (send_error self code message).
Proof.
  unfold send_error, log_error, end_headers.
  destruct (responses code) as [[short long]|]; cbv zeta; quiet_auto.
Qed.

#[local] Hint Resolve quiet_send_error : quiet.

Lemma quiet_serve_masking_html (self : Self) :
  quiet (_serve_masking_html self).
Proof. unfold _serve_masking_html, end_headers, pass. cbv zeta. quiet_auto. Qed.

Lemma quiet_serve_static_file (self : Self) (name content_type : pystr) :
  quiet (_serve_static_file self name content_type).
Proof. unfold _serve_static_file, end_headers, pass. cbv zeta. quiet_auto. Qed.

Lemma quiet_serve_fits_file (self : Self) :
  quiet (_serve_fits_file self).
Proof. unfold _serve_fits_file, end_headers, pass. quiet_auto. Qed.

#[local] Hint Resolve quiet_serve_masking_html quiet_serve_static_file
  quiet_serve_fits_file : quiet.

Lemma quiet_do_GET (self : Self) : quiet (do_GET self).
Proof. unfold do_GET. quiet_auto. Qed.

Lemma quiet_handle_one_request (self : Self) :
  quiet (handle_one_request self).
Proof.
  unfold handle_one_request.
  destruct (getattr do_methods _) as [method|] eqn:E.
  - cbn [getattr do_methods] in E. case_bool_decide; [|done].
    injection E as <-. apply quiet_do_GET.
  - apply quiet_send_error.
Qed.

End QuietFacts.

(** ** The serve loop and startup *)

Section LifecycleFacts.
Context `{Platform}.
Import Handler Lifecycle.

(** Serving a request never fails and touches neither [stdout] nor the
    record of outside calls, whatever the handler does. *)
Lemma process_request_spec (self : Self) (s : Process) :
  (process_request self s).1 = Ok ()
  /\ stdout (process_request self s).2 = stdout s
  /\ events (process_request self s).2 = events s.
Proof.
  unfold process_request.
  set (fresh := {| stdout := stdout s; stderr := stderr s;
                   events := events s; _headers_buffer := [];
                   wfile := []; sent := sent s |}).
  destruct (quiet_handle_one_request self fresh) as (Ho & _ & He).
  destruct (handle_one_request self fresh) as [outcome s'].
  cbn [fst snd] in *. by rewrite Ho, He.
Qed.

Lemma serve_requests_spec (httpd : Server) (incoming : list Incoming)
    (s : Process) :
  (serve_requests httpd incoming s).1 = Ok ()
  /\ stdout (serve_requests httpd incoming s).2 = stdout s
  /\ events (serve_requests httpd incoming s).2 = events s.
Proof.
  revert s. induction incoming as [|r rest IH]; intros s; [done|].
  cbn [serve_requests]. unfold mbind, M_bind.
  match goal with
  | |- context [process_request ?self s] =>
      destruct (process_request_spec self s) as (Hr & Ho & He);
      destruct (process_request self s) as [outcome s']
  end.
  cbn [fst snd] in *. subst outcome.
  destruct (IH s') as (Hr' & Ho' & He'). by rewrite Hr', Ho', He', Ho, He.
Qed.

Lemma serve_forever_spec (httpd : Server) (incoming : list Incoming)
    (s : Process) :
  (serve_forever httpd incoming s).1 = Ok ()
  /\ stdout (serve_forever httpd incoming s).2 = stdout s
  /\ events (serve_forever httpd incoming s).2 = events s ++ [ServeForever].
Proof.
  unfold serve_forever, mbind, M_bind, emit.
  apply (serve_requests_spec httpd incoming (emitted ServeForever s)).
Qed.

(** [main], by what it finds at startup. *)
Lemma main_startup (w : World) (args : Args) (incoming : list Incoming) :
  let p := resolve w (file args) in
  let r := main w args incoming initial in
  match exists_ (startup_disk w) p with
  | Raise e => r = (Raise e, initial)
  | Ok false =>
      r = (Raise (FileNotFoundError (lit "File not found: " ++ path_str p)),
           initial)
  | Ok true =>
      match with_name (__file__ w) (lit "Masking.html") with
      | Raise e => r = (Raise e, initial)
      | Ok html =>
          match exists_ (startup_disk w) html with
          | Raise e => r = (Raise e, initial)
          | Ok false =>
              r = (Raise (FileNotFoundError
                            (lit "Masking.html not found at "
                             ++ path_str html)),
                   initial)
          | Ok true =>
              match os_bind w (port args) with
              | Raise e =>
                  r.1 = Raise e /\ stdout r.2 = []
                  /\ events r.2 = [Bind (lit "127.0.0.1") (port args)]
              | Ok bound =>
                  let url := lit "http://127.0.0.1:" ++ str_of_int bound
                             ++ lit "/?open=1" in
                  r.1 = Ok () /\ stdout r.2 = [url]
                  /\ events r.2
                     = [Bind (lit "127.0.0.1") (port args)]
                       ++ (if open args then [OpenBrowser url] else [])
                       ++ (if 0 <? timeout args
                           then [StartThread (timeout args)] else [])
                       ++ [ServeForever]
              end
          end
      end
  end.
Proof.
  cbv zeta. unfold main. rewrite bind_lift.
  destruct (exists_ (startup_disk w) (resolve w (file args))) as [[|]|e0];
    [|reflexivity|reflexivity].
  cbn [negb]. unfold run_server. rewrite bind_lift.
  destruct (with_name (__file__ w) (lit "Masking.html")) as [html|e];
    [|reflexivity].
  rewrite bind_lift.
  destruct (exists_ (startup_disk w) html) as [[|]|e1];
    [|reflexivity|reflexivity].
  cbn [negb]. unfold TCPServer, mbind, M_bind, mret, M_ret, lift, emit.
  destruct (os_bind w (port args)) as [bound|e]; [|done].
  unfold print, webbrowser_open, start_shutdown_later, emit, pass, mret, M_ret.
  destruct (open args), (0 <? timeout args); cbn [snd];
    match goal with
    | |- context [serve_forever ?httpd incoming ?s] =>
        destruct (serve_forever_spec httpd incoming s) as (Hr & Ho & He);
        destruct (serve_forever httpd incoming s) as [outcome s']
    end;
    cbn [fst snd] in *; subst outcome; rewrite Ho, He; done.
Qed.

(** [exists()] answers true exactly on what can be looked at. *)
Lemma exists_true (d : gmap Path Node) (p : Path) :
  exists_ d p = Ok true
  <-> d !! p = Some Unreadable \/ exists data, d !! p = Some (RegularFile data).
Proof.
  unfold exists_. destruct (d !! p) as [[data| |]|]; split;
    try done; try (intros [? | [? ?]]; done); eauto.
Qed.

Lemma exists_false (d : gmap Path Node) (p : Path) :
  exists_ d p = Ok false <-> d !! p = None.
Proof. unfold exists_. by destruct (d !! p) as [[data| |]|]. Qed.

End LifecycleFacts.

(* ===================================================================== *)
(** * The claims *)
(* ===================================================================== *)

Section RequestClaims.
Context `{Platform}.
Import Handler Serving.

Lemma route_of_fits_js : route_of (lit "/fits.js") = Ok StaticAsset.
Proof. reflexivity. Qed.

Lemma route_of_file : route_of (lit "/file") = Ok TargetFile.
Proof. reflexivity. Qed.

Lemma route_of_root : route_of (lit "/") = Ok ApplicationShell.
Proof. reflexivity. Qed.

Lemma route_of_index : route_of (lit "/index.html") = Ok ApplicationShell.
Proof. reflexivity. Qed.

Lemma break_one_line (s : pystr) :
  one_line s = true -> (break is_eol s).1 = s.
Proof.
  induction s as [|x s IH]; [done|].
  cbn [one_line forallb]. intros [Hx Hs]%andb_true_iff.
  rewrite break_cons_fst. apply negb_true_iff in Hx. rewrite Hx.
  by rewrite (IH Hs).
Qed.

(** A header whose keyword and value are one line each is one line on the
    wire, and that line holds the whole value. *)
Lemma first_line_header_text (keyword value : pystr) :
  one_line keyword = true -> one_line value = true ->
  first_line (header_text keyword value) = keyword ++ lit ": " ++ value.
Proof.
  intros Hk Hv. unfold first_line, header_text.
  replace (keyword ++ lit ": " ++ value ++ [13%N; 10%N])
    with ((keyword ++ lit ": " ++ value) ++ 13%N :: [10%N])
    by (by rewrite <- !app_assoc).
  rewrite break_stop by reflexivity. cbn [fst].
  apply break_one_line. unfold one_line in *.
  rewrite !forallb_app, Hk, Hv. reflexivity.
Qed.


Lemma response_of_error (code : Z) (message : pystr) (lines : list Line)
    (rest w : list Wire) :
  w = Head (StatusLine code message :: lines) :: rest ->
  exists r, response_of w = Some r /\ status r = code /\ reason r = message.
Proof. intros ->. eexists. by split. Qed.

(** C2 (as amended).  [GET /file] answers 404 "File not found" when
    [exists()] finds no target file at request time, in particular when
    it was deleted after startup; when [exists()] finds it but reading it
    fails the answer is 500 "Failed to read file". *)
Theorem fits_file_missing_or_unreadable (self : Self) (p : Path) :
  file_path (server self) = Some p ->
  (exists_ (disk self) p = Ok false ->
   exists r, response_of (reply (GET self (lit "/file"))) = Some r
             /\ status r = 404 /\ reason r = lit "File not found")
  /\ (forall at_startup : gmap Path Node,
        disk self = delete p at_startup ->
        exists r, response_of (reply (GET self (lit "/file"))) = Some r
                  /\ status r = 404 /\ reason r = lit "File not found")
  /\ (forall e : exn,
        exists_ (disk self) p = Ok true ->
        read_bytes (disk self) p = Raise e ->
        exists r, response_of (reply (GET self (lit "/file"))) = Some r
                  /\ status r = 500 /\ reason r = lit "Failed to read file").
Proof.
  intros Hp.
  pose proof (serve_fits_file_cases (GET self (lit "/file"))) as Hc.
  cbn [server disk GET request_for] in Hc. rewrite Hp in Hc.
  rewrite reply_GET, route_of_file. cbn [dispatch].
  assert (Hmissing :
            disk self !! p = None ->
            exists r,
              response_of (wrote (_serve_fits_file (GET self (lit "/file"))))
              = Some r
              /\ status r = 404 /\ reason r = lit "File not found").
  { intros Hd. rewrite Hd in Hc. destruct Hc as (lines & rest & E).
    by apply (response_of_error _ _ lines rest). }
  split; [|split].
  - intros Hd. by apply Hmissing, exists_false.
  - intros at_startup Hd. apply Hmissing. rewrite Hd. apply lookup_delete_eq.
  - intros e Hyes Hread. unfold exists_ in Hyes. unfold read_bytes in Hread.
    destruct (disk self !! p) as [[data| |]|]; try discriminate.
    destruct Hc as (lines & rest & E).
    by apply (response_of_error _ _ lines rest).
Qed.

(** C3.  Every 200 response of the three resource handlers carries
    [Cache-Control: no-store] and a [Content-Length] that is the decimal
    numeral of the length of the body written, so that it reads back as
    that length. *)
Theorem ok_responses_are_uncached_and_sized (self : Self)
    (name content_type : pystr) (r : Response) :
  response_of (wrote (_serve_masking_html self)) = Some r
  \/ response_of (wrote (_serve_static_file self name content_type)) = Some r
  \/ response_of (wrote (_serve_fits_file self)) = Some r ->
  status r = 200 ->
  get_header (headers r) (lit "Cache-Control") = Some (lit "no-store")
  /\ get_header (headers r) (lit "Content-Length")
     = Some (str_of_int (Z.of_nat (length (body r))))
  /\ get_header (headers r) (lit "Content-Length") ≫= int_of_str
     = Some (Z.of_nat (length (body r))).
Proof.
  intros Hr Hs.
  cut (get_header (headers r) (lit "Cache-Control") = Some (lit "no-store")
       /\ get_header (headers r) (lit "Content-Length")
          = Some (str_of_int (Z.of_nat (length (body r))))).
  { intros [Hcc Hcl]. split; [exact Hcc|]. split; [exact Hcl|].
    rewrite Hcl. apply int_of_str_of_int. }
  assert (Hgood : forall (ct : pystr) (extra : list Line)
                         (data : list Byte.byte),
             extra = [] \/ (exists v, extra = [HeaderLine (lit "X-Masking-File-Name") v]) ->
             response_of
               [Head ([StatusLine 200 (reason_phrase 200 None);
                       HeaderLine (lit "Server") (lit version_string);
                       HeaderLine (lit "Date") (lit (date_time_string self));
                       HeaderLine (lit "Content-Type") ct;
                       HeaderLine (lit "Cache-Control") (lit "no-store");
                       HeaderLine (lit "Content-Length")
                                  (str_of_int (Z.of_nat (length data)))]
                      ++ extra);
                Data data] = Some r ->
             get_header (headers r) (lit "Cache-Control")
             = Some (lit "no-store")
             /\ get_header (headers r) (lit "Content-Length")
                = Some (str_of_int (Z.of_nat (length (body r))))).
  { intros ct extra data Hx E. cbn [app response_of] in E.
    injection E as <-. cbn [headers body map data_of concat].
    rewrite app_nil_r. split; reflexivity. }
  assert (Hbad : forall code message lines rest,
             code ≠ 200 ->
             response_of (Head (StatusLine code message :: lines) :: rest)
             = Some r -> False).
  { intros code message lines rest Hne E. injection E as <-.
    cbn [status] in Hs. done. }
  destruct Hr as [Hr|[Hr|Hr]].
  - pose proof (serve_masking_html_cases self) as Hc.
    destruct (disk self !! html_path (server self)) as [[data| |]|].
    + rewrite Hc in Hr. eapply (Hgood _ [] data); [by left | exact Hr].
    + destruct Hc as (lines & rest & E). rewrite E in Hr.
      exfalso; eapply Hbad; [|exact Hr]; lia.
    + destruct Hc as (lines & rest & E). rewrite E in Hr.
      exfalso; eapply Hbad; [|exact Hr]; lia.
    + destruct Hc as (lines & rest & E). rewrite E in Hr.
      exfalso; eapply Hbad; [|exact Hr]; lia.
  - pose proof (serve_static_file_cases self name content_type) as Hc.
    destruct (disk self !! joinpath (static_dir (server self)) name)
      as [[data| |]|].
    + destruct (latin1 content_type).
      * rewrite Hc in Hr. eapply (Hgood _ [] data); [by left | exact Hr].
      * rewrite Hc in Hr. done.
    + destruct Hc as (lines & rest & E). rewrite E in Hr.
      exfalso; eapply Hbad; [|exact Hr]; lia.
    + destruct Hc as (lines & rest & E). rewrite E in Hr.
      exfalso; eapply Hbad; [|exact Hr]; lia.
    + destruct Hc as (lines & rest & E). rewrite E in Hr.
      exfalso; eapply Hbad; [|exact Hr]; lia.
  - pose proof (serve_fits_file_cases self) as Hc.
    destruct (file_path (server self)) as [p|].
    + destruct (disk self !! p) as [[data| |]|].
      * destruct (latin1 (PathLib.name p)).
        -- rewrite Hc in Hr.
           eapply (Hgood _ [HeaderLine (lit "X-Masking-File-Name")
                                       (PathLib.name p)] data);
             [right; eauto | exact Hr].
        -- destruct Hc as [_ Hc]. rewrite Hc in Hr. done.
      * destruct Hc as (lines & rest & E). rewrite E in Hr.
        exfalso; eapply Hbad; [|exact Hr]; lia.
      * destruct Hc as [_ Hc]. rewrite Hc in Hr. done.
      * destruct Hc as (lines & rest & E). rewrite E in Hr.
        exfalso; eapply Hbad; [|exact Hr]; lia.
    + destruct Hc as (lines & rest & E). rewrite E in Hr.
      exfalso; eapply Hbad; [|exact Hr]; lia.
Qed.

(** C4 (as amended).  In every state [GET /] and [GET /index.html] are
    handled identically; when Masking.html can be read at request time the
    answer is 200 with its bytes as the body, and otherwise both get the
    same 500. *)
Theorem root_and_index_identical (self : Self) :
  (forall s, handle_one_request (GET self (lit "/")) s
             = handle_one_request (GET self (lit "/index.html")) s)
  /\ reply (GET self (lit "/")) = reply (GET self (lit "/index.html"))
  /\ (forall data,
        disk self !! html_path (server self) = Some (RegularFile data) ->
        exists r, response_of (reply (GET self (lit "/"))) = Some r
                  /\ status r = 200 /\ body r = data)
  /\ ((forall data,
         disk self !! html_path (server self) ≠ Some (RegularFile data)) ->
      exists r, response_of (reply (GET self (lit "/"))) = Some r
                /\ status r = 500
                /\ reason r = lit "Failed to load Masking.html").
Proof.
  assert (Hsame : forall s, handle_one_request (GET self (lit "/")) s
                            = handle_one_request (GET self (lit "/index.html")) s).
  { intros s. rewrite !handle_GET, !do_GET_dispatch.
    unfold mbind, M_bind, lift. cbn [path GET request_for].
    rewrite route_of_root, route_of_index. reflexivity. }
  split; [exact Hsame|]. split.
  { unfold reply, wrote. by rewrite Hsame. }
  pose proof (serve_masking_html_cases (GET self (lit "/"))) as Hc.
  cbn [server disk GET request_for] in Hc.
  rewrite reply_GET, route_of_root. cbn [dispatch].
  split.
  - intros data Hd. rewrite Hd in Hc. rewrite Hc.
    eexists. split; [reflexivity|]. split; [reflexivity|].
    cbn. apply app_nil_r.
  - intros Hd.
    destruct (disk self !! html_path (server self)) as [[data| |]|].
    + by destruct (Hd data).
    + destruct Hc as (lines & rest & E).
      by apply (response_of_error _ _ lines rest).
    + destruct Hc as (lines & rest & E).
      by apply (response_of_error _ _ lines rest).
    + destruct Hc as (lines & rest & E).
      by apply (response_of_error _ _ lines rest).
Qed.

Lemma request_path_query (P Q : pystr) :
  request_path (P ++ lit "?" ++ Q) = request_path P ++ lit "?" ++ Q.
Proof.
  change (P ++ lit "?" ++ Q) with (P ++ chr "?" :: Q).
  change (request_path P ++ lit "?" ++ Q)
    with (request_path P ++ chr "?" :: Q).
  unfold request_path, upto. change (Z.to_nat 2) with 2%nat.
  destruct P as [|x [|y s]].
  - reflexivity.
  - cbn [app take]. rewrite !bool_decide_eq_false_2; [done|..].
    + intros [=].
    + destruct Q; intros [=].
  - rewrite <- !app_comm_cons. cbn [take]. rewrite ?take_0.
    destruct (bool_decide ([x; y] = lit "//")); [|reflexivity].
    rewrite !app_comm_cons.
    by rewrite lstrip_stop by reflexivity.
Qed.


(** C10.  Only [do_GET] is defined: a request with any other method is
    answered by [send_error(501, ...)] alone, so no resource handler runs
    and the answer does not depend on the disk. *)
Theorem other_methods_not_implemented (self : Self) (verb target : pystr) :
  verb ≠ lit "GET" ->
  latin1 verb = true ->
  handle_one_request (request_for self verb target)
  = send_error (request_for self verb target) 501
      (Some (lit "Unsupported method (" ++ py_repr verb ++ lit ")"))
  /\ (exists r, response_of (reply (request_for self verb target)) = Some r
                /\ status r = 501)
  /\ (forall d : gmap Path Node,
        reply {| command := verb; path := target; server := server self;
                 disk := d; date_time_string := date_time_string self |}
        = reply (request_for self verb target)).
Proof.
  intros Hv Hl.
  pose proof (handle_other self verb target Hv) as Hh.
  split; [exact Hh|]. split.
  - unfold reply. rewrite Hh.
    assert (Hm : latin1 (lit "Unsupported method (" ++ py_repr verb ++ lit ")")
                 = true).
    { rewrite !latin1_app, !latin1_lit, py_repr_latin1 by done. done. }
    destruct (wrote_send_error (request_for self verb target) 501 _ Hm)
      as (lines & rest & E).
    destruct (response_of_error _ _ lines rest _ E) as (r & Hr & Hs & _).
    eauto.
  - intros d. unfold reply. rewrite Hh.
    pose proof (handle_other
                  {| command := verb; path := target; server := server self;
                     disk := d; date_time_string := date_time_string self |}
                  verb target Hv) as Hd.
    unfold request_for in Hd. cbn [server disk date_time_string] in Hd.
    rewrite Hd. reflexivity.
Qed.

End RequestClaims.

Section LifecycleClaims.
Context `{Platform}.
Import Handler Lifecycle.

(** C6 (as amended).  If [exists()] finds no target file at startup,
    [main] raises [FileNotFoundError] with the message "File not found: "
    followed by the target path; if it finds the target and no
    Masking.html next to the script, [main] raises [FileNotFoundError]
    with the message "Masking.html not found at " followed by that path.
    Whenever one of the two is missing the exit status is 1 and nothing
    has happened before: no bind, no output, no serving.  (Whether the
    target file can be read is not checked at startup.) *)
Theorem startup_aborts_on_missing_file (w : World) (args : Args)
    (incoming : list Incoming) (html : Path) :
  with_name (__file__ w) (lit "Masking.html") = Ok html ->
  (exists_ (startup_disk w) (resolve w (file args)) = Ok false ->
   main w args incoming initial
   = (Raise (FileNotFoundError
               (lit "File not found: "
                ++ path_str (resolve w (file args)))),
      initial))
  /\ (exists_ (startup_disk w) (resolve w (file args)) = Ok true ->
      exists_ (startup_disk w) html = Ok false ->
      main w args incoming initial
      = (Raise (FileNotFoundError
                  (lit "Masking.html not found at " ++ path_str html)),
         initial))
  /\ (exists_ (startup_disk w) (resolve w (file args)) = Ok false
      \/ exists_ (startup_disk w) html = Ok false ->
      exists e,
        main w args incoming initial = (Raise e, initial)
        /\ exit_status (main w args incoming initial).1 = 1).
Proof.
  intros Hhtml.
  pose proof (main_startup w args incoming) as Hm. cbv zeta in Hm.
  rewrite Hhtml in Hm.
  split; [|split].
  - intros Hno. by rewrite Hno in Hm.
  - intros Hyes Hno. by rewrite Hyes, Hno in Hm.
  - intros Hmissing.
    destruct (exists_ (startup_disk w) (resolve w (file args)))
      as [[|]|e0] eqn:Hf.
    + destruct Hmissing as [Hno|Hno]; [discriminate|].
      rewrite Hno in Hm. eexists. by rewrite Hm.
    + eexists. by rewrite Hm.
    + eexists. by rewrite Hm.
Qed.

Lemma os_bind_fixed (w : World) (port bound : Z) :
  os_bind w port = Ok bound -> port ≠ 0 -> bound = port.
Proof.
  unfold os_bind. intros E Hp.
  destruct ((port <? 0) || (65535 <? port)); [done|].
  destruct (port =? 0) eqn:E0; [apply Z.eqb_eq in E0; done|].
  destruct (port_in_use w port); congruence.
Qed.

(** C7.  When startup succeeds, [stdout] holds exactly one line, the URL
    http://127.0.0.1:<bound port>/?open=1, also after any number of
    requests have been served; with a fixed port N the bound port is N. *)
Theorem stdout_is_exactly_the_url (w : World) (args : Args)
    (incoming : list Incoming) (s' : Process) :
  main w args incoming initial = (Ok (), s') ->
  exists bound,
    os_bind w (port args) = Ok bound
    /\ stdout s'
       = [lit "http://127.0.0.1:" ++ str_of_int bound ++ lit "/?open=1"]
    /\ (port args ≠ 0 -> bound = port args).
Proof.
  intros Hrun.
  pose proof (main_startup w args incoming) as Hm. cbv zeta in Hm.
  rewrite Hrun in Hm. cbn [fst snd] in Hm.
  destruct (exists_ (startup_disk w) (resolve w (file args))) as [[|]|];
    [|done|done].
  destruct (with_name (__file__ w) (lit "Masking.html")) as [html|]; [|done].
  destruct (exists_ (startup_disk w) html) as [[|]|]; [|done|done].
  destruct (os_bind w (port args)) as [bound|e] eqn:Hb.
  - destruct Hm as (_ & Hout & _). exists bound.
    split; [done|]. split; [done|]. by apply (os_bind_fixed w).
  - by destruct Hm.
Qed.

(** C9.  Whatever the configuration, the only address [main] ever binds
    is 127.0.0.1 with the configured port, and it is bound whenever the
    server gets to serve. *)
Theorem binds_loopback_only (w : World) (args : Args)
    (incoming : list Incoming) :
  let r := main w args incoming initial in
  forallb loopback_only (events r.2) = true
  /\ (binds (events r.2) = []
      \/ binds (events r.2) = [(lit "127.0.0.1", port args)])
  /\ (r.1 = Ok () ->
      binds (events r.2) = [(lit "127.0.0.1", port args)]).
Proof.
  cbv zeta.
  pose proof (main_startup w args incoming) as Hm. cbv zeta in Hm.
  assert (Hlo : loopback_only (Bind (lit "127.0.0.1") (port args)) = true)
    by reflexivity.
  destruct (exists_ (startup_disk w) (resolve w (file args))) as [[|]|];
    [|rewrite Hm; cbn; split; [done|]; split; [by left|done]..].
  destruct (with_name (__file__ w) (lit "Masking.html")) as [html|];
    [|rewrite Hm; cbn; split; [done|]; split; [by left|done]].
  destruct (exists_ (startup_disk w) html) as [[|]|];
    [|rewrite Hm; cbn; split; [done|]; split; [by left|done]..].
  destruct (os_bind w (port args)) as [bound|e].
  - destruct Hm as (_ & _ & ->).
    destruct (open args), (0 <? timeout args);
      cbn [app forallb binds omap]; rewrite Hlo;
      (split; [reflexivity|]); (split; [by right|done]).
  - destruct Hm as (-> & _ & ->).
    cbn [app forallb binds omap]; rewrite Hlo;
      (split; [reflexivity|]); (split; [by right|done]).
Qed.

(** X14.  The part of the lifetime cap that is a decision of the program:
    the thread running [shutdown_later] is started exactly when the timeout
    is positive, and it is told to sleep that many seconds. *)
Lemma shutdown_thread_started_iff (w : World) (args : Args)
    (incoming : list Incoming) (s' : Process) (t : Z) :
  main w args incoming initial = (Ok (), s') ->
  StartThread t ∈ events s' <-> 0 < timeout args /\ t = timeout args.
Proof.
  intros Hrun.
  pose proof (main_startup w args incoming) as Hm. cbv zeta in Hm.
  rewrite Hrun in Hm. cbn [fst snd] in Hm.
  destruct (exists_ (startup_disk w) (resolve w (file args))) as [[|]|];
    [|done|done].
  destruct (with_name (__file__ w) (lit "Masking.html")) as [html|]; [|done].
  destruct (exists_ (startup_disk w) html) as [[|]|]; [|done|done].
  destruct (os_bind w (port args)) as [bound|e]; [|by destruct Hm].
  destruct Hm as (_ & _ & ->).
  destruct (0 <? timeout args) eqn:Ht;
    [apply Z.ltb_lt in Ht | apply Z.ltb_ge in Ht];
    destruct (open args); cbn [app];
    (split;
     [ intros Hin; apply list_elem_of_In in Hin; cbn [In] in Hin;
       repeat (destruct Hin as [Hin|Hin]); try discriminate; try done;
       injection Hin as <-; by split
     | intros (Hlt & ->); try lia;
       apply list_elem_of_In; cbn [In]; tauto ]).
Qed.

End LifecycleClaims.

(* ===================================================================== *)
(** * Concrete runs *)
(* ===================================================================== *)

Module Runs.
Import Handler Lifecycle Samples.
#[local] Existing Instance cpython.

(** C1.  /tmp/α.fits exists and is readable, yet [GET /file] does not
    answer 200: [send_header("X-Masking-File-Name", file_path.name)]
    raises [UnicodeEncodeError] before [end_headers], the exception leaves
    the handler, and nothing at all reaches the client. *)
Theorem non_latin1_file_name_gets_no_response :
  read_bytes sample_disk alpha_fits = Ok fits_bytes
  /\ latin1 (name alpha_fits) = false
  /\ (handle_one_request (request "GET" "/file" alpha_fits sample_disk)
        initial).1 = Raise UnicodeEncodeError
  /\ sample_reply "GET" "/file" alpha_fits sample_disk = []
  /\ response_of (sample_reply "GET" "/file" alpha_fits sample_disk) = None.
Proof. vm_compute. repeat split. Qed.


(** C2 as stated fails: an existing but unreadable target gets 500. *)
Lemma unreadable_fits_file_gets_500 :
  exists_ locked_disk a_fits = Ok true
  /\ read_bytes locked_disk a_fits
     = Raise (OSError (lit "Permission denied: /tmp/a.fits"))
  /\ status <$> response_of (sample_reply "GET" "/file" a_fits locked_disk)
     = Some 500
  /\ status <$> response_of (sample_reply "GET" "/file" a_fits locked_disk)
     ≠ Some 404.
Proof. vm_compute. repeat split. discriminate. Qed.

Lemma deleted_fits_file_gets_404 :
  exists r,
    response_of
      (reply (GET (request "GET" "/file" a_fits (delete a_fits sample_disk))
                  (lit "/file"))) = Some r
    /\ status r = 404 /\ reason r = lit "File not found".
Proof.
  apply (proj1 (proj2 (fits_file_missing_or_unreadable
                         (request "GET" "/file" a_fits
                                  (delete a_fits sample_disk))
                         a_fits eq_refl)) sample_disk).
  reflexivity.
Defined.

(** C3 at /tmp/a.fits. *)
Lemma ok_response_headers_witness :
  exists r,
    response_of (wrote (_serve_fits_file
                          (request "GET" "/file" a_fits sample_disk)))
    = Some r
    /\ status r = 200
    /\ get_header (headers r) (lit "Cache-Control") = Some (lit "no-store")
    /\ get_header (headers r) (lit "Content-Length") = Some (lit "6")
    /\ length (body r) = 6%nat.
Proof.
  eexists. split; [vm_compute; reflexivity|]. split; [reflexivity|].
  pose proof (ok_responses_are_uncached_and_sized
                (request "GET" "/file" a_fits sample_disk)
                (lit "fits.js") (lit "application/javascript; charset=utf-8")
                _ (or_intror (or_intror eq_refl)) eq_refl) as (Hcc & Hcl & _).
  split; [exact Hcc|]. split; [exact Hcl|reflexivity].
Defined.

(** C4 as stated fails: once Masking.html is gone, [GET /] is a 500. *)
Lemma missing_shell_gets_500 :
  status <$> response_of
               (sample_reply "GET" "/" a_fits (delete masking_html sample_disk))
  = Some 500
  /\ status <$> response_of
                  (sample_reply "GET" "/index.html" a_fits
                                (delete masking_html sample_disk))
     = Some 500.
Proof. vm_compute. by split. Qed.

Lemma root_and_index_witness :
  exists r,
    response_of (reply (GET (request "GET" "/" a_fits sample_disk) (lit "/")))
    = Some r
    /\ status r = 200 /\ body r = html_bytes.
Proof.
  apply (proj1 (proj2 (proj2 (root_and_index_identical
                                (request "GET" "/" a_fits sample_disk))))).
  reflexivity.
Defined.



(** What [urlparse] calls the path: parameters after ';' in the last
    segment, a fragment, a scheme or a network location are not part of
    it. *)
Example path_component_examples :
  route_of (lit "/file?x=1") = Ok TargetFile
  /\ route_of (lit "/file;v=1") = Ok TargetFile
  /\ route_of (lit "/index.html#top") = Ok ApplicationShell
  /\ route_of (lit "http://127.0.0.1:5500/fits.js") = Ok StaticAsset
  /\ route_of (lit "/file/") = Ok NotFound
  /\ route_of (lit "/File") = Ok NotFound.
Proof. vm_compute. repeat split. Qed.

(** C10 at [POST /file]. *)
Lemma post_gets_501_witness :
  exists r,
    response_of
      (reply (request_for (request "GET" "/" a_fits sample_disk)
                          (lit "POST") (lit "/file"))) = Some r
    /\ status r = 501.
Proof.
  apply (proj1 (proj2 (other_methods_not_implemented
                         (request "GET" "/" a_fits sample_disk)
                         (lit "POST") (lit "/file")
                         ltac:(vm_compute; discriminate) eq_refl))).
Defined.

(** C6 as stated fails: a target that exists but cannot be read passes
    the startup check and the server binds and serves. *)
Lemma unreadable_target_starts_server :
  read_bytes locked_disk a_fits
  = Raise (OSError (lit "Permission denied: /tmp/a.fits"))
  /\ (sample_main locked_disk (sample_args (lit "a.fits") 5500) []).1 = Ok ()
  /\ events (sample_main locked_disk (sample_args (lit "a.fits") 5500) []).2
     = [Bind (lit "127.0.0.1") 5500; ServeForever].
Proof. vm_compute. repeat split. Qed.

Lemma missing_target_aborts_witness :
  main (sample_world sample_disk) (sample_args (lit "b.fits") 5500) []
       initial
  = (Raise (FileNotFoundError
              (lit "File not found: "
               ++ path_str (resolve (sample_world sample_disk)
                                    (file (sample_args (lit "b.fits") 5500))))),
     initial).
Proof.
  apply (proj1 (startup_aborts_on_missing_file
                  (sample_world sample_disk)
                  (sample_args (lit "b.fits") 5500) []
                  masking_html eq_refl)).
  vm_compute. reflexivity.
Defined.

(** With the target in place and Masking.html gone, the message names
    Masking.html. *)
Example missing_shell_aborts :
  main (sample_world (delete masking_html sample_disk))
       (sample_args (lit "a.fits") 5500) [] initial
  = (Raise (FileNotFoundError
              (lit "Masking.html not found at /opt/FME/Masking.html")),
     initial).
Proof. vm_compute. reflexivity. Qed.

(** C7 at [--port 5500], with one request served. *)
Lemma stdout_witness :
  exists bound,
    os_bind (sample_world sample_disk) 5500 = Ok bound
    /\ stdout (sample_main sample_disk (sample_args (lit "a.fits") 5500)
                 [{| at_disk := sample_disk; at_time := "later";
                     method := lit "GET"; target := lit "/file" |}]).2
       = [lit "http://127.0.0.1:" ++ str_of_int bound ++ lit "/?open=1"]
    /\ (5500 ≠ 0 -> bound = 5500).
Proof.
  apply (stdout_is_exactly_the_url
           (sample_world sample_disk) (sample_args (lit "a.fits") 5500)
           [{| at_disk := sample_disk; at_time := "later";
               method := lit "GET"; target := lit "/file" |}]).
  vm_compute. reflexivity.
Defined.

Example stdout_scenario :
  stdout (sample_main sample_disk (sample_args (lit "a.fits") 5500) []).2
  = [lit "http://127.0.0.1:5500/?open=1"].
Proof. vm_compute. reflexivity. Qed.

(** C9 at [--port 0]. *)
Lemma loopback_witness :
  binds (events (sample_main sample_disk (sample_args (lit "a.fits") 0) []).2)
  = [(lit "127.0.0.1", 0)].
Proof.
  apply (proj2 (proj2 (binds_loopback_only
                         (sample_world sample_disk)
                         (sample_args (lit "a.fits") 0) []))).
  vm_compute. reflexivity.
Defined.

End Runs.

(* ===================================================================== *)
(** * Further properties *)
(* ===================================================================== *)

(** ** Handlers are confined to their connection *)

Section ConfinedFacts.
Context `{Platform}.
Import Handler Lifecycle Serving.

Lemma confined_ret {A} (a : A) : confined (mret a).
Proof. split; [by intros s1 s2 E | done]. Qed.

Lemma confined_raise {A} (e : exn) : confined (@raise A e).
Proof. split; [by intros s1 s2 E | done]. Qed.

Lemma confined_lift {A} (r : result A) : confined (lift r).
Proof. split; [by intros s1 s2 E | done]. Qed.

Lemma confined_bind {A B} (m : M A) (f : A -> M B) :
  confined m -> (forall a, confined (f a)) -> confined (m ≫= f).
Proof.
  intros [Hm Hs] Hf. split.
  - intros s1 s2 E. unfold mbind, M_bind.
    destruct (Hm s1 s2 E) as [Hr Hc].
    destruct (m s1) as [[a|e] t1], (m s2) as [[a'|e'] t2];
      cbn [fst snd] in *; try discriminate.
    + injection Hr as ->. by apply (Hf a').
    + injection Hr as ->. by split.
  - intros s. unfold mbind, M_bind. specialize (Hs s).
    destruct (m s) as [[a|e] t]; cbn [snd] in *; [|done].
    by rewrite (proj2 (Hf a) t).
Qed.

Lemma confined_try {A} (body handler : M A) :
  confined body -> confined handler -> confined (try_except body handler).
Proof.
  intros [Hb Hs] [Hh Hs']. split.
  - intros s1 s2 E. unfold try_except.
    destruct (Hb s1 s2 E) as [Hr Hc].
    destruct (body s1) as [[a|e] t1], (body s2) as [[a'|e'] t2];
      cbn [fst snd] in *; try discriminate.
    + by split.
    + by apply Hh.
  - intros s. unfold try_except. specialize (Hs s).
    destruct (body s) as [[a|e] t]; cbn [snd] in *; [done|].
    by rewrite Hs'.
Qed.

Lemma confined_buffer_line (l : Line) : confined (buffer_line l).
Proof.
  split; [|done]. intros s1 s2 [= E1 E2]. split; [done|].
  unfold conn. cbn. by rewrite E1, E2.
Qed.

Lemma confined_flush_headers : confined flush_headers.
Proof.
  split; [|done]. intros s1 s2 [= E1 E2]. split; [done|].
  unfold conn. cbn. by rewrite E1, E2.
Qed.

Lemma confined_wfile_write (data : list Byte.byte) :
  confined (wfile_write data).
Proof.
  split; [|done]. intros s1 s2 [= E1 E2]. split; [done|].
  unfold conn. cbn. by rewrite E1, E2.
Qed.

Lemma confined_log_message (self : Self) (format : pystr)
    (args : list pystr) :
  confined (log_message self format args).
Proof. apply confined_ret. Qed.

Lemma confined_pass : confined pass.
Proof. apply confined_ret. Qed.

Create HintDb confined.

#[local] Hint Resolve confined_pass confined_ret confined_raise confined_lift
  confined_buffer_line confined_flush_headers confined_wfile_write
  confined_log_message : confined.

Ltac confined_auto :=
  repeat first
    [ solve [auto with confined nocore]
    | apply confined_try
    | match goal with
      | |- confined (if ?b then _ else _) => destruct b
      | |- confined (match ?x with _ => _ end) => destruct x
      end
    | apply confined_bind; [|intros ?] ].

Lemma confined_send_header (self : Self) (keyword value : pystr) :
  confined (send_header self keyword value).
Proof. unfold send_header. confined_auto. Qed.

#[local] Hint Resolve confined_send_header : confined.

Lemma confined_send_response (self : Self) (code : Z)
    (message : option pystr) :
  confined (send_response self code message).
Proof.
  unfold send_response, send_response_only, log_request. cbv zeta.
  confined_auto.
Qed.

#[local] Hint Resolve confined_send_response : confined.

Lemma confined_send_error (self : Self) (code : Z) (message : option pystr) :
  confined (send_error self code message).
Proof.
  unfold send_error, log_error, end_headers.
  destruct (responses code) as [[short long]|]; cbv zeta; confined_auto.
Qed.

#[local] Hint Resolve confined_send_error : confined.

Lemma confined_handle_one_request (self : Self) :
  confined (handle_one_request self).
Proof.
  unfold handle_one_request.
  destruct (getattr do_methods _) as [method|] eqn:E;
    [|apply confined_send_error].
  cbn [getattr do_methods] in E. case_bool_decide; [|done].
  injection E as <-.
  unfold do_GET, _serve_masking_html, _serve_static_file, _serve_fits_file,
    end_headers, pass. cbv zeta. confined_auto.
Qed.

(** One request: the reply is appended to [sent], and it is the reply the
    handler gives on a fresh connection. *)
Lemma process_request_sent (self : Self) (s : Process) :
  sent (process_request self s).2 = sent s ++ [reply self].
Proof.
  unfold process_request.
  set (fresh := {| stdout := stdout s; stderr := stderr s;
                   events := events s; _headers_buffer := [];
                   wfile := []; sent := sent s |}).
  destruct (confined_handle_one_request self) as [Hc Hs].
  destruct (Hc fresh initial eq_refl) as [_ [= _ Hw]].
  specialize (Hs fresh). unfold reply, wrote. rewrite <- Hw.
  destruct (handle_one_request self fresh) as [outcome s'].
  cbn [snd sent] in *. by rewrite Hs.
Qed.

Lemma serve_requests_sent (httpd : Server) (incoming : list Incoming)
    (s : Process) :
  sent (serve_requests httpd incoming s).2
  = sent s ++ map (fun r => reply (handler_of httpd r)) incoming.
Proof.
  revert s. induction incoming as [|r rest IH]; intros s.
  - cbn. by rewrite app_nil_r.
  - cbn [serve_requests map]. unfold mbind, M_bind.
    pose proof (process_request_sent (handler_of httpd r) s) as Hp.
    pose proof (process_request_spec (handler_of httpd r) s) as (Hr & _).
    unfold handler_of in *.
    destruct (process_request _ s) as [outcome s']. cbn [fst snd] in *.
    subst outcome. rewrite IH, Hp, <- app_assoc. reflexivity.
Qed.

(** A successful [main] is its startup followed by the serve loop. *)
Lemma main_serves (w : World) (args : Args) (incoming : list Incoming)
    (s' : Process) :
  main w args incoming initial = (Ok (), s') ->
  exists html s0,
    with_name (__file__ w) (lit "Masking.html") = Ok html
    /\ exists_ (startup_disk w) (resolve w (file args)) = Ok true
    /\ exists_ (startup_disk w) html = Ok true
    /\ sent s0 = []
    /\ s' = (serve_requests (httpd_of (resolve w (file args)) html)
                            incoming s0).2.
Proof.
  unfold main. rewrite bind_lift.
  destruct (exists_ (startup_disk w) (resolve w (file args)))
    as [[|]|e] eqn:Hf; [|discriminate|discriminate].
  cbn [negb]. unfold run_server. rewrite bind_lift.
  destruct (with_name (__file__ w) (lit "Masking.html")) as [html|e];
    [|discriminate].
  rewrite bind_lift.
  destruct (exists_ (startup_disk w) html) as [[|]|e] eqn:Hh;
    [|discriminate|discriminate].
  cbn [negb]. unfold TCPServer, mbind, M_bind, mret, M_ret, lift, emit.
  destruct (os_bind w (port args)) as [bound|e]; [|discriminate].
  unfold print, webbrowser_open, start_shutdown_later, emit, pass, mret,
    M_ret, serve_forever, mbind, M_bind, emit.
  intros Hrun. exists html.
  destruct (open args), (0 <? timeout args); cbn [snd] in Hrun;
    match type of Hrun with
    | context [serve_requests ?httpd incoming ?s] =>
        exists s;
        pose proof (serve_requests_spec httpd incoming s) as (Hr & _);
        destruct (serve_requests httpd incoming s) as [outcome t] eqn:Hs
    end;
    cbn [fst snd] in *; subst outcome; injection Hrun as <-;
    repeat (split; [by eauto|]); unfold httpd_of; by rewrite Hs.
Qed.

End ConfinedFacts.

(** ** The static asset, the shell and the target file *)

Section HandlerExtras.
Context `{Platform}.
Import Handler Lifecycle Serving.

(** X1.  [GET /fits.js] answers 200 with the bytes of fits.js in the
    static directory and the JavaScript content type, whenever that file
    can be read at request time. *)
Theorem static_asset_served (self : Self) (data : list Byte.byte) :
  disk self !! joinpath (static_dir (server self)) (lit "fits.js")
  = Some (RegularFile data) ->
  exists r,
    response_of (reply (GET self (lit "/fits.js"))) = Some r
    /\ status r = 200
    /\ get_header (headers r) (lit "Content-Type")
       = Some (lit "application/javascript; charset=utf-8")
    /\ body r = data.
Proof.
  intros Hd. rewrite reply_GET, route_of_fits_js. cbn [dispatch].
  pose proof (serve_static_file_cases
                (GET self (lit "/fits.js")) (lit "fits.js")
                (lit "application/javascript; charset=utf-8")) as Hc.
  cbn [server disk GET request_for] in Hc.
  rewrite Hd, latin1_lit in Hc. rewrite Hc.
  eexists. split; [reflexivity|]. split; [reflexivity|].
  split; [reflexivity|]. cbn. apply app_nil_r.
Qed.

(** X2.  [GET /fits.js] answers 404 "Not Found" when fits.js is not in
    the static directory, and 500 "Failed to load static file" when it is
    there but cannot be read. *)
Theorem static_asset_missing_or_unreadable (self : Self) :
  (disk self !! joinpath (static_dir (server self)) (lit "fits.js") = None ->
   exists r, response_of (reply (GET self (lit "/fits.js"))) = Some r
             /\ status r = 404 /\ reason r = lit "Not Found")
  /\ (disk self !! joinpath (static_dir (server self)) (lit "fits.js")
      = Some Unreadable ->
      exists r, response_of (reply (GET self (lit "/fits.js"))) = Some r
                /\ status r = 500
                /\ reason r = lit "Failed to load static file").
Proof.
  rewrite reply_GET, route_of_fits_js. cbn [dispatch].
  pose proof (serve_static_file_cases
                (GET self (lit "/fits.js")) (lit "fits.js")
                (lit "application/javascript; charset=utf-8")) as Hc.
  cbn [server disk GET request_for] in Hc.
  split; intros Hd; rewrite Hd in Hc; destruct Hc as (lines & rest & E);
    by apply (response_of_error _ _ lines rest).
Qed.

(** X3.  When Masking.html can be read, the answer to [GET /] and to
    [GET /index.html] is typed text/html; charset=utf-8 and carries no
    X-Masking-File-Name header. *)
Theorem shell_is_typed_html (self : Self) (data : list Byte.byte)
    (target : pystr) :
  disk self !! html_path (server self) = Some (RegularFile data) ->
  target = lit "/" \/ target = lit "/index.html" ->
  exists r,
    response_of (reply (GET self target)) = Some r
    /\ get_header (headers r) (lit "Content-Type")
       = Some (lit "text/html; charset=utf-8")
    /\ get_header (headers r) (lit "X-Masking-File-Name") = None.
Proof.
  intros Hd Ht.
  assert (Hr : route_of target = Ok ApplicationShell).
  { destruct Ht as [-> | ->]; [apply route_of_root | apply route_of_index]. }
  rewrite reply_GET, Hr. cbn [dispatch].
  pose proof (serve_masking_html_cases (GET self target)) as Hc.
  cbn [server disk GET request_for] in Hc. rewrite Hd in Hc. rewrite Hc.
  eexists. split; [reflexivity|]. split; reflexivity.
Qed.

(** X5.  A readable target whose base name does not encode in Latin-1 is
    never answered: the handler raises before anything is written, the
    client receives nothing, one report goes to [stderr], and the serve
    loop goes on. *)
Theorem non_latin1_name_never_answered (self : Self) (p : Path)
    (data : list Byte.byte) (s : Process) :
  file_path (server self) = Some p ->
  disk self !! p = Some (RegularFile data) ->
  latin1 (name p) = false ->
  reply (GET self (lit "/file")) = []
  /\ (process_request (GET self (lit "/file")) s).1 = Ok ()
  /\ sent (process_request (GET self (lit "/file")) s).2 = sent s ++ [[]]
  /\ stderr (process_request (GET self (lit "/file")) s).2
     = stderr s ++ [lit "Exception occurred during processing of request"].
Proof.
  intros Hp Hd Hn.
  pose proof (serve_fits_file_cases (GET self (lit "/file"))) as Hc.
  cbn [server disk GET request_for] in Hc. rewrite Hp, Hd, Hn in Hc.
  destruct Hc as [Hraise Hnone].
  assert (Hreply : reply (GET self (lit "/file")) = []).
  { rewrite reply_GET, route_of_file. exact Hnone. }
  split; [exact Hreply|]. split; [apply process_request_spec|].
  split; [by rewrite process_request_sent, Hreply|].
  unfold process_request.
  set (fresh := {| stdout := stdout s; stderr := stderr s;
                   events := events s; _headers_buffer := [];
                   wfile := []; sent := sent s |}).
  destruct (confined_handle_one_request (GET self (lit "/file")))
    as [Hconf _].
  destruct (Hconf fresh initial eq_refl) as [Hout _].
  destruct (quiet_handle_one_request (GET self (lit "/file")) fresh)
    as (_ & Herr & _).
  assert (Hinit : (handle_one_request (GET self (lit "/file")) initial).1
                  = Raise UnicodeEncodeError).
  { rewrite handle_GET, do_GET_dispatch.
    unfold mbind, M_bind, lift. cbn [path GET request_for].
    rewrite route_of_file. exact Hraise. }
  rewrite Hinit in Hout.
  destruct (handle_one_request (GET self (lit "/file")) fresh)
    as [outcome s'].
  cbn [fst snd stderr] in *. subst outcome. by rewrite Herr.
Qed.

(** X6.  Every reply to a GET is either empty (the handler raised) or a
    response whose status is 200, 404 or 500; an error response carries
    one of the five reason phrases written in the program, whatever the
    paths and the disk. *)
Theorem get_replies_classified (self : Self) (target : pystr) :
  reply (GET self target) = []
  \/ exists r,
       response_of (reply (GET self target)) = Some r
       /\ (status r = 200 \/ (status r, reason r) ∈ error_reasons).
Proof.
  rewrite reply_GET.
  assert (Herr : forall (w : list Wire) code message lines rest,
             bool_decide ((code, message) ∈ error_reasons) ->
             w = Head (StatusLine code message :: lines) :: rest ->
             w = [] \/ exists r, response_of w = Some r
                     /\ (status r = 200
                         \/ (status r, reason r) ∈ error_reasons)).
  { intros w code message lines rest Hin ->. right. eexists.
    split; [reflexivity|]. right. cbn [status reason].
    exact (bool_decide_unpack _ Hin). }
  assert (Hok : forall (w : list Wire) message lines rest,
             w = Head (StatusLine 200 message :: lines) :: rest ->
             w = [] \/ exists r, response_of w = Some r
                     /\ (status r = 200
                         \/ (status r, reason r) ∈ error_reasons)).
  { intros w message lines rest ->. right. eexists.
    split; [reflexivity|]. by left. }
  destruct (route_of target) as [[]|e]; [..|by left]; cbn [dispatch].
  - pose proof (serve_static_file_cases
                  (GET self target) (lit "fits.js")
                  (lit "application/javascript; charset=utf-8")) as Hc.
    rewrite latin1_lit in Hc.
    destruct (disk _ !! joinpath _ _) as [[data| |]|].
    + by apply (Hok _ _ _ _ Hc).
    + destruct Hc as (lines & rest & E).
      eapply Herr; [|exact E]. by vm_compute.
    + destruct Hc as (lines & rest & E).
      eapply Herr; [|exact E]. by vm_compute.
    + destruct Hc as (lines & rest & E).
      eapply Herr; [|exact E]. by vm_compute.
  - pose proof (serve_fits_file_cases (GET self target)) as Hc.
    destruct (file_path _) as [p|].
    + destruct (disk _ !! p) as [[data| |]|].
      * destruct (latin1 (name p)).
        -- by apply (Hok _ _ _ _ Hc).
        -- left. apply Hc.
      * destruct Hc as (lines & rest & E).
        eapply Herr; [|exact E]. by vm_compute.
      * left. apply Hc.
      * destruct Hc as (lines & rest & E).
        eapply Herr; [|exact E]. by vm_compute.
    + destruct Hc as (lines & rest & E).
      eapply Herr; [|exact E]. by vm_compute.
  - pose proof (serve_masking_html_cases (GET self target)) as Hc.
    destruct (disk _ !! html_path _) as [[data| |]|].
    + by apply (Hok _ _ _ _ Hc).
    + destruct Hc as (lines & rest & E).
      eapply Herr; [|exact E]. by vm_compute.
    + destruct Hc as (lines & rest & E).
      eapply Herr; [|exact E]. by vm_compute.
    + destruct Hc as (lines & rest & E).
      eapply Herr; [|exact E]. by vm_compute.
  - destruct (wrote_send_error (GET self target) 404 (lit "Not Found")
                (latin1_lit _)) as (lines & rest & E).
    eapply Herr; [|exact E]. by vm_compute.
Qed.

(** X7.  The reply to a GET depends on the disk only through the one
    path its route consults (fits.js in the static directory, the target
    file, or Masking.html): two disks that agree there get the same reply,
    and a request routed to 404 gets it whatever is on disk. *)
Theorem reply_reads_one_path (self : Self) (d : gmap Path Node)
    (target : pystr) :
  (forall r p, route_of target = Ok r ->
               consulted (server self) r = Some p ->
               disk self !! p = d !! p) ->
  reply (GET (with_disk self d) target) = reply (GET self target).
Proof.
  intros Hagree. rewrite !reply_GET.
  destruct (route_of target) as [[]|e]; [..|reflexivity];
    unfold wrote, dispatch.
  - specialize (Hagree StaticAsset _ eq_refl eq_refl).
    unfold _serve_static_file, exists_, read_bytes.
    cbn [disk server GET request_for with_disk]. rewrite Hagree.
    reflexivity.
  - unfold _serve_fits_file, exists_, read_bytes.
    cbn [disk server GET request_for with_disk].
    destruct (file_path (server self)) as [p|] eqn:Hp; [|reflexivity].
    specialize (Hagree TargetFile p eq_refl Hp). rewrite Hagree.
    reflexivity.
  - specialize (Hagree ApplicationShell _ eq_refl eq_refl).
    unfold _serve_masking_html, read_bytes.
    cbn [disk server GET request_for with_disk]. rewrite Hagree.
    reflexivity.
  - reflexivity.
Qed.

(** X8.  Handling a request, whatever its method, its target and the
    disk, prints nothing, logs nothing to [stderr] and makes no outside
    call, also when the answer is an error. *)
Theorem requests_are_not_logged (self : Self) (s : Process) :
  stdout (handle_one_request self s).2 = stdout s
  /\ stderr (handle_one_request self s).2 = stderr s
  /\ events (handle_one_request self s).2 = events s.
Proof. apply quiet_handle_one_request. Qed.

End HandlerExtras.

(** ** The serve loop and startup, continued *)

Section LifecycleExtras.
Context `{Platform}.
Import Handler Lifecycle Serving.

Lemma removelast_snoc {A} (l : list A) (x : A) : removelast (l ++ [x]) = l.
Proof.
  induction l as [|y l IH]; [done|].
  cbn [app removelast]. rewrite IH. by destruct l.
Qed.

(** [Path(f).with_name(a).parent / b] is [Path(f).with_name(b)]. *)
Lemma with_name_sibling (p a b : Path) (n m : pystr) :
  with_name p n = Ok a -> with_name p m = Ok b ->
  joinpath (parent a) m = b.
Proof.
  unfold with_name, joinpath, parent.
  destruct (parts p) as [|x l]; [discriminate|].
  intros [= <-] [= <-]. cbn [absolute parts].
  by rewrite removelast_snoc.
Qed.

Lemma handler_of_GET (httpd : Server) (r : Incoming) (t : pystr) :
  method r = lit "GET" -> request_path (target r) = t ->
  handler_of httpd r = GET (handler_of httpd r) t.
Proof. intros Hm Ht. unfold handler_of, GET, request_for. cbn. by rewrite Hm, Ht. Qed.

(** X9.  After a successful startup the replies sent are, in order, the
    replies of the handler to each incoming request on a fresh connection,
    each computed from the disk at the time of that request and from the
    server paths fixed at startup: no request affects a later one. *)
Theorem requests_answered_in_order (w : World) (args : Args)
    (incoming : list Incoming) (s' : Process) :
  main w args incoming initial = (Ok (), s') ->
  exists html,
    with_name (__file__ w) (lit "Masking.html") = Ok html
    /\ sent s'
       = map (fun r => reply (handler_of
                                (httpd_of (resolve w (file args)) html) r))
             incoming.
Proof.
  intros Hrun.
  destruct (main_serves w args incoming s' Hrun)
    as (html & s0 & Hhtml & _ & _ & Hs0 & ->).
  exists html. split; [exact Hhtml|].
  by rewrite serve_requests_sent, Hs0.
Qed.


(** X11.  The shell and the script are looked up next to the program
    file: after startup, [GET /fits.js] answers with the bytes of
    [Path(__file__).with_name("fits.js")] and [GET /] and
    [GET /index.html] with those of
    [Path(__file__).with_name("Masking.html")], as they are when the
    request is handled. *)
Theorem assets_come_from_script_directory (w : World) (args : Args)
    (incoming : list Incoming) (s' : Process) (i : nat) (r : Incoming)
    (asset : Path) (data : list Byte.byte) :
  main w args incoming initial = (Ok (), s') ->
  incoming !! i = Some r ->
  method r = lit "GET" ->
  (target r = lit "/fits.js"
   /\ with_name (__file__ w) (lit "fits.js") = Ok asset)
  \/ ((target r = lit "/" \/ target r = lit "/index.html")
      /\ with_name (__file__ w) (lit "Masking.html") = Ok asset) ->
  at_disk r !! asset = Some (RegularFile data) ->
  exists resp,
    sent s' !! i ≫= response_of = Some resp
    /\ status resp = 200 /\ body resp = data.
Proof.
  intros Hrun Hi Hm Hwhich Hd.
  destruct (main_serves w args incoming s' Hrun)
    as (html & s0 & Hhtml & _ & _ & Hs0 & ->).
  rewrite serve_requests_sent, Hs0. cbn [app].
  rewrite list_lookup_fmap, Hi. cbn [fmap option_fmap option_map mbind option_bind].
  assert (Hpath : request_path (target r) = target r).
  { destruct Hwhich as [[-> _] | [[-> | ->] _]]; reflexivity. }
  rewrite (handler_of_GET _ r (target r) Hm Hpath).
  rewrite reply_GET.
  destruct Hwhich as [[Ht Ha] | [Ht Ha]].
  - rewrite Ht, route_of_fits_js. cbn [dispatch].
    pose proof (serve_static_file_cases
                  (GET (handler_of (httpd_of (resolve w (file args)) html) r)
                       (lit "/fits.js"))
                  (lit "fits.js")
                  (lit "application/javascript; charset=utf-8")) as Hc.
    cbn [server disk GET request_for handler_of httpd_of static_dir] in Hc.
    rewrite (with_name_sibling _ _ _ _ _ Hhtml Ha), Hd, latin1_lit in Hc.
    rewrite Hc. eexists. split; [reflexivity|]. split; [reflexivity|].
    cbn. apply app_nil_r.
  - assert (Hr : route_of (target r) = Ok ApplicationShell).
    { destruct Ht as [-> | ->]; [apply route_of_root | apply route_of_index]. }
    rewrite Hr. cbn [dispatch].
    pose proof (serve_masking_html_cases
                  (GET (handler_of (httpd_of (resolve w (file args)) html) r)
                       (target r))) as Hc.
    cbn [server disk GET request_for handler_of httpd_of html_path] in Hc.
    assert (html = asset) as -> by congruence.
    rewrite Hd in Hc. rewrite Hc.
    eexists. split; [reflexivity|]. split; [reflexivity|].
    cbn. apply app_nil_r.
Qed.

(** X12.  If binding the socket fails, [main] ends with that exception:
    the bind on 127.0.0.1 was the only outside call, no URL was printed,
    no browser opened, no thread started and nothing served. *)
Theorem bind_failure_aborts (w : World) (args : Args)
    (incoming : list Incoming) (html : Path) (e : exn) :
  exists_ (startup_disk w) (resolve w (file args)) = Ok true ->
  with_name (__file__ w) (lit "Masking.html") = Ok html ->
  exists_ (startup_disk w) html = Ok true ->
  os_bind w (port args) = Raise e ->
  (main w args incoming initial).1 = Raise e
  /\ exit_status (main w args incoming initial).1 = 1
  /\ stdout (main w args incoming initial).2 = []
  /\ events (main w args incoming initial).2
     = [Bind (lit "127.0.0.1") (port args)].
Proof.
  intros Hf Hhtml Hh Hb.
  pose proof (main_startup w args incoming) as Hm. cbv zeta in Hm.
  rewrite Hf, Hhtml, Hh, Hb in Hm. destruct Hm as (Hr & Ho & He).
  rewrite Hr. by repeat split.
Qed.

(** X13.  The browser is opened exactly when [--open] is given, and then
    with the very URL that was printed. *)
Theorem browser_opened_iff (w : World) (args : Args)
    (incoming : list Incoming) (s' : Process) (url : pystr) :
  main w args incoming initial = (Ok (), s') ->
  OpenBrowser url ∈ events s' <-> open args = true /\ stdout s' = [url].
Proof.
  intros Hrun.
  pose proof (main_startup w args incoming) as Hm. cbv zeta in Hm.
  rewrite Hrun in Hm. cbn [fst snd] in Hm.
  destruct (exists_ (startup_disk w) (resolve w (file args))) as [[|]|];
    [|done|done].
  destruct (with_name (__file__ w) (lit "Masking.html")) as [html|]; [|done].
  destruct (exists_ (startup_disk w) html) as [[|]|]; [|done|done].
  destruct (os_bind w (port args)) as [bound|e]; [|by destruct Hm].
  destruct Hm as (_ & -> & ->).
  destruct (open args), (0 <? timeout args); cbn [app];
    (split;
     [ intros Hin; apply list_elem_of_In in Hin; cbn [In] in Hin;
       repeat (destruct Hin as [Hin|Hin]); try discriminate; try done;
       injection Hin as <-; by split
     | intros (Hopen & [= <-]); try discriminate;
       apply list_elem_of_In; cbn [In]; tauto ]).
Qed.

(** X15.  With [--port 0] the URL printed shows the port the operating
    system assigned, read back from the bound socket. *)
Theorem url_shows_assigned_port (w : World) (args : Args)
    (incoming : list Incoming) (s' : Process) :
  main w args incoming initial = (Ok (), s') ->
  port args = 0 ->
  exists assigned,
    ephemeral_port w = Some assigned
    /\ stdout s' = [printed_url assigned].
Proof.
  intros Hrun Hp.
  pose proof (main_startup w args incoming) as Hm. cbv zeta in Hm.
  rewrite Hrun in Hm. cbn [fst snd] in Hm.
  destruct (exists_ (startup_disk w) (resolve w (file args))) as [[|]|];
    [|done|done].
  destruct (with_name (__file__ w) (lit "Masking.html")) as [html|]; [|done].
  destruct (exists_ (startup_disk w) html) as [[|]|]; [|done|done].
  destruct (os_bind w (port args)) as [bound|e] eqn:Hb; [|by destruct Hm].
  destruct Hm as (_ & -> & _).
  rewrite Hp in Hb. unfold os_bind in Hb. cbn in Hb.
  destruct (ephemeral_port w) as [p|]; [|discriminate].
  injection Hb as ->. by exists bound.
Qed.

End LifecycleExtras.

(** ** Concrete runs, continued *)

Module MoreRuns.
Import Handler Lifecycle Samples Serving MoreSamples.
#[local] Existing Instance cpython.

(** X1 on the sample disk. *)
Lemma static_asset_served_witness :
  exists r,
    response_of (reply (GET (request "GET" "/" a_fits sample_disk)
                            (lit "/fits.js"))) = Some r
    /\ status r = 200
    /\ get_header (headers r) (lit "Content-Type")
       = Some (lit "application/javascript; charset=utf-8")
    /\ body r = js_bytes.
Proof.
  apply (static_asset_served (request "GET" "/" a_fits sample_disk) js_bytes).
  vm_compute. reflexivity.
Defined.

(** X2 once fits.js has been removed. *)
Lemma static_asset_missing_witness :
  exists r,
    response_of
      (reply (GET (request "GET" "/" a_fits (delete fits_js sample_disk))
                  (lit "/fits.js"))) = Some r
    /\ status r = 404 /\ reason r = lit "Not Found".
Proof.
  apply (proj1 (static_asset_missing_or_unreadable
                  (request "GET" "/" a_fits (delete fits_js sample_disk)))).
  vm_compute. reflexivity.
Defined.

(** X3 at /index.html. *)
Lemma shell_is_typed_html_witness :
  exists r,
    response_of (reply (GET (request "GET" "/" a_fits sample_disk)
                            (lit "/index.html"))) = Some r
    /\ get_header (headers r) (lit "Content-Type")
       = Some (lit "text/html; charset=utf-8")
    /\ get_header (headers r) (lit "X-Masking-File-Name") = None.
Proof.
  apply (shell_is_typed_html (request "GET" "/" a_fits sample_disk)
           html_bytes (lit "/index.html")).
  - vm_compute. reflexivity.
  - right. reflexivity.
Defined.

(** X5 at /tmp/α.fits. *)
Lemma non_latin1_name_witness :
  reply (GET (request "GET" "/" alpha_fits sample_disk) (lit "/file")) = []
  /\ (process_request
        (GET (request "GET" "/" alpha_fits sample_disk) (lit "/file"))
        initial).1 = Ok ()
  /\ sent (process_request
             (GET (request "GET" "/" alpha_fits sample_disk) (lit "/file"))
             initial).2 = sent initial ++ [[]]
  /\ stderr (process_request
               (GET (request "GET" "/" alpha_fits sample_disk) (lit "/file"))
               initial).2
     = stderr initial
       ++ [lit "Exception occurred during processing of request"].
Proof.
  apply (non_latin1_name_never_answered
           (request "GET" "/" alpha_fits sample_disk) alpha_fits fits_bytes
           initial);
    vm_compute; reflexivity.
Defined.

(** X7: Masking.html plays no part in the reply to [GET /file]. *)
Lemma reply_reads_one_path_witness :
  reply (GET (with_disk (request "GET" "/" a_fits sample_disk)
                        (delete masking_html sample_disk))
             (lit "/file"))
  = reply (GET (request "GET" "/" a_fits sample_disk) (lit "/file")).
Proof.
  apply (reply_reads_one_path (request "GET" "/" a_fits sample_disk)
           (delete masking_html sample_disk) (lit "/file")).
  intros r p Hr Hp. vm_compute in Hr. injection Hr as <-.
  vm_compute in Hp. injection Hp as <-.
  vm_compute. reflexivity.
Defined.

(** X9: two requests, the second for a file deleted in between. *)
Lemma requests_answered_in_order_witness :
  exists html,
    with_name (__file__ (sample_world sample_disk)) (lit "Masking.html")
    = Ok html
    /\ sent (sample_main sample_disk (args_with false 0 5500)
               [get "/file" sample_disk;
                get "/file" (delete a_fits sample_disk)]).2
       = map (fun r => reply (handler_of
                                (httpd_of (resolve (sample_world sample_disk)
                                             (file (args_with false 0 5500)))
                                          html) r))
             [get "/file" sample_disk;
              get "/file" (delete a_fits sample_disk)].
Proof.
  apply (requests_answered_in_order
           (sample_world sample_disk) (args_with false 0 5500)
           [get "/file" sample_disk; get "/file" (delete a_fits sample_disk)]).
  vm_compute. reflexivity.
Defined.


(** X11 at /fits.js. *)
Lemma assets_come_from_script_directory_witness :
  exists resp,
    sent (sample_main sample_disk (args_with false 0 5500)
            [get "/fits.js" sample_disk]).2 !! 0%nat ≫= response_of
    = Some resp
    /\ status resp = 200 /\ body resp = js_bytes.
Proof.
  apply (assets_come_from_script_directory
           (sample_world sample_disk) (args_with false 0 5500)
           [get "/fits.js" sample_disk]
           (sample_main sample_disk (args_with false 0 5500)
                        [get "/fits.js" sample_disk]).2
           0 (get "/fits.js" sample_disk) fits_js js_bytes).
  - vm_compute. reflexivity.
  - reflexivity.
  - reflexivity.
  - left. split; vm_compute; reflexivity.
  - vm_compute. reflexivity.
Defined.

(** X12: port 5500 is taken. *)
Lemma bind_failure_aborts_witness :
  (main busy_world (args_with true 60 5500) [] initial).1
  = Raise (OSError (lit "Address already in use"))
  /\ exit_status (main busy_world (args_with true 60 5500) [] initial).1 = 1
  /\ stdout (main busy_world (args_with true 60 5500) [] initial).2 = []
  /\ events (main busy_world (args_with true 60 5500) [] initial).2
     = [Bind (lit "127.0.0.1") (port (args_with true 60 5500))].
Proof.
  apply (bind_failure_aborts busy_world (args_with true 60 5500) []
           masking_html).
  - vm_compute. reflexivity.
  - reflexivity.
  - vm_compute. reflexivity.
  - vm_compute. reflexivity.
Defined.

(** X13 with [--open]. *)
Lemma browser_opened_witness :
  OpenBrowser (lit "http://127.0.0.1:5500/?open=1")
    ∈ events (sample_main sample_disk (args_with true 0 5500) []).2.
Proof.
  apply (browser_opened_iff
           (sample_world sample_disk) (args_with true 0 5500) []
           (sample_main sample_disk (args_with true 0 5500) []).2
           (lit "http://127.0.0.1:5500/?open=1")).
  - vm_compute. reflexivity.
  - split; vm_compute; reflexivity.
Defined.

(** X14 with [--timeout 60]. *)
Lemma shutdown_thread_witness :
  StartThread 60
    ∈ events (sample_main sample_disk (args_with false 60 5500) []).2.
Proof.
  apply (shutdown_thread_started_iff
           (sample_world sample_disk) (args_with false 60 5500) []
           (sample_main sample_disk (args_with false 60 5500) []).2 60).
  - vm_compute. reflexivity.
  - split; [vm_compute|]; reflexivity.
Defined.

(** X15 with [--port 0]. *)
Lemma url_shows_assigned_port_witness :
  exists assigned,
    ephemeral_port (sample_world sample_disk) = Some assigned
    /\ stdout (sample_main sample_disk (args_with false 0 0) []).2
       = [printed_url assigned].
Proof.
  apply (url_shows_assigned_port
           (sample_world sample_disk) (args_with false 0 0) []).
  - vm_compute. reflexivity.
  - reflexivity.
Defined.

End MoreRuns.

(** ** Malformed targets, and when the server starts *)

Section StartupExtras.
Context `{Platform}.
Import Handler Lifecycle Serving.

(** X16.  [do_GET] calls [urlparse] outside any [try]: a request target
    that [urlparse] rejects gets no reply at all, neither a 404 nor a
    500; the exception leaves the handler. *)
Theorem rejected_target_gets_no_reply (self : Self) (target : pystr)
    (e : exn) :
  UrlParse.urlparse target = Raise e ->
  reply (GET self target) = []
  /\ forall s, handle_one_request (GET self target) s = (Raise e, s).
Proof.
  intros Hp. split.
  - rewrite reply_GET. unfold route_of. by rewrite Hp.
  - intros s. rewrite handle_GET. unfold do_GET.
    cbn [path GET request_for]. rewrite bind_lift, Hp. reflexivity.
Qed.

(** X17.  [main] gets to serve exactly when [exists()] answers True for
    the resolved target path and for Masking.html next to the script, and
    the bind succeeds; whether the target can be read, [--open] and
    [--timeout] play no part. *)
Theorem server_starts_iff (w : World) (args : Args)
    (incoming : list Incoming) :
  (main w args incoming initial).1 = Ok ()
  <-> exists_ (startup_disk w) (resolve w (file args)) = Ok true
      /\ (exists html bound,
            with_name (__file__ w) (lit "Masking.html") = Ok html
            /\ exists_ (startup_disk w) html = Ok true
            /\ os_bind w (port args) = Ok bound).
Proof.
  pose proof (main_startup w args incoming) as Hm. cbv zeta in Hm.
  destruct (exists_ (startup_disk w) (resolve w (file args))) as [[|]|e0].
  - destruct (with_name (__file__ w) (lit "Masking.html")) as [html|e].
    + destruct (exists_ (startup_disk w) html) as [[|]|e1] eqn:Hh.
      * destruct (os_bind w (port args)) as [bound|e].
        -- destruct Hm as (-> & _). split; [|done]. intros _.
           split; [done|]. exists html, bound. by rewrite Hh.
        -- destruct Hm as (-> & _). split; [done|].
           by intros (_ & html' & bound & _ & _ & ?).
      * rewrite Hm. split; [done|].
        intros (_ & html' & bound & [= <-] & Hyes & _).
        rewrite Hh in Hyes. done.
      * rewrite Hm. split; [done|].
        intros (_ & html' & bound & [= <-] & Hyes & _).
        rewrite Hh in Hyes. done.
    + rewrite Hm. split; [done|]. by intros (_ & html' & bound & ? & _).
  - rewrite Hm. split; [done|]. by intros (? & _).
  - rewrite Hm. split; [done|]. by intros (? & _).
Qed.

(** X18.  The outside calls of a successful run come in the order of the
    program text: the bind on 127.0.0.1, then the browser if [--open],
    then the shutdown thread if the timeout is positive, then the serve
    loop, and nothing else. *)
Theorem startup_effects_in_order (w : World) (args : Args)
    (incoming : list Incoming) (s' : Process) :
  main w args incoming initial = (Ok (), s') ->
  exists url,
    stdout s' = [url]
    /\ events s'
       = [Bind (lit "127.0.0.1") (port args)]
         ++ (if open args then [OpenBrowser url] else [])
         ++ (if 0 <? timeout args then [StartThread (timeout args)] else [])
         ++ [ServeForever].
Proof.
  intros Hrun.
  pose proof (main_startup w args incoming) as Hm. cbv zeta in Hm.
  rewrite Hrun in Hm. cbn [fst snd] in Hm.
  destruct (exists_ (startup_disk w) (resolve w (file args))) as [[|]|];
    [|done|done].
  destruct (with_name (__file__ w) (lit "Masking.html")) as [html|]; [|done].
  destruct (exists_ (startup_disk w) html) as [[|]|]; [|done|done].
  destruct (os_bind w (port args)) as [bound|e]; [|by destruct Hm].
  destruct Hm as (_ & Ho & He). eauto.
Qed.

(** X19.  [_serve_fits_file] calls [exists()] outside its [try] and
    [_serve_static_file] inside: when [exists()] itself raises on the
    target path, [GET /file] gets no reply at all and the exception leaves
    the handler; when it raises on fits.js, [GET /fits.js] is answered
    500 "Failed to load static file". *)
Theorem exists_failure_inside_and_outside_try (self : Self) (e : exn) :
  (forall p : Path,
     file_path (server self) = Some p ->
     exists_ (disk self) p = Raise e ->
     reply (GET self (lit "/file")) = []
     /\ forall s, handle_one_request (GET self (lit "/file")) s
                  = (Raise e, s))
  /\ (exists_ (disk self) (joinpath (static_dir (server self)) (lit "fits.js"))
      = Raise e ->
      exists r, response_of (reply (GET self (lit "/fits.js"))) = Some r
                /\ status r = 500
                /\ reason r = lit "Failed to load static file").
Proof.
  split.
  - intros p Hp He. split.
    + rewrite reply_GET, route_of_file. cbn [dispatch].
      pose proof (serve_fits_file_cases (GET self (lit "/file"))) as Hc.
      cbn [server disk GET request_for] in Hc. rewrite Hp in Hc.
      unfold exists_ in He.
      destruct (disk self !! p) as [[data| |]|]; try discriminate.
      apply Hc.
    + intros s. rewrite handle_GET, do_GET_dispatch.
      cbn [path GET request_for]. rewrite bind_lift, route_of_file.
      cbn [dispatch]. unfold _serve_fits_file.
      cbn [server disk GET request_for]. rewrite Hp, bind_lift, He.
      reflexivity.
  - intros He. rewrite reply_GET, route_of_fits_js. cbn [dispatch].
    pose proof (serve_static_file_cases
                  (GET self (lit "/fits.js")) (lit "fits.js")
                  (lit "application/javascript; charset=utf-8")) as Hc.
    cbn [server disk GET request_for] in Hc.
    unfold exists_ in He.
    destruct (disk self !! joinpath _ _) as [[data| |]|]; try discriminate.
    destruct Hc as (lines & rest & E).
    by apply (response_of_error _ _ lines rest).
Qed.

End StartupExtras.

Module StartupRuns.
Import Handler Lifecycle Samples Serving MoreSamples.
#[local] Existing Instance cpython.

(** X16 at the absolute-form target http://[/x. *)
Lemma rejected_target_witness :
  reply (GET (request "GET" "/" a_fits sample_disk) (lit "http://[/x")) = []
  /\ forall s,
       handle_one_request
         (GET (request "GET" "/" a_fits sample_disk) (lit "http://[/x")) s
       = (Raise (ValueError (lit "Invalid IPv6 URL")), s).
Proof.
  apply (rejected_target_gets_no_reply
           (request "GET" "/" a_fits sample_disk) (lit "http://[/x")).
  vm_compute. reflexivity.
Defined.

(** X18 with [--open --timeout 60]. *)
Lemma startup_effects_witness :
  exists url,
    stdout (sample_main sample_disk (args_with true 60 5500) []).2 = [url]
    /\ events (sample_main sample_disk (args_with true 60 5500) []).2
       = [Bind (lit "127.0.0.1") (port (args_with true 60 5500))]
         ++ (if open (args_with true 60 5500) then [OpenBrowser url] else [])
         ++ (if 0 <? timeout (args_with true 60 5500)
             then [StartThread (timeout (args_with true 60 5500))] else [])
         ++ [ServeForever].
Proof.
  apply (startup_effects_in_order
           (sample_world sample_disk) (args_with true 60 5500) []).
  vm_compute. reflexivity.
Defined.

(** X19 with /tmp barred. *)
Lemma exists_failure_witness :
  reply (GET (request "GET" "/" a_fits barred_disk) (lit "/file")) = []
  /\ forall s,
       handle_one_request
         (GET (request "GET" "/" a_fits barred_disk) (lit "/file")) s
       = (Raise (OSError (lit "Permission denied: " ++ path_str a_fits)), s).
Proof.
  apply (proj1 (exists_failure_inside_and_outside_try
                  (request "GET" "/" a_fits barred_disk)
                  (OSError (lit "Permission denied: " ++ path_str a_fits)))
           a_fits).
  - reflexivity.
  - vm_compute. reflexivity.
Defined.

End StartupRuns.
